(** * issue_resolver: the issue-processing client and the session log broker

    A shallow embedding of the TypeScript client services
    ([services/apiService.ts], [services/githubService.ts], the message
    handler of [pages/ChatPage.tsx]) together with a model of the
    server-side session broker, and the properties established about them.

    Conventions.
    - A JavaScript string is a [string]: a sequence of code units, with
      [ascii] as the code-unit alphabet.
    - A JavaScript number that the program only counts with or prints
      (indices, HTTP status, close codes) is a [Z].
    - A promise is modelled by its settlement, [Outcome]: resolved with a
      value or rejected with a thrown value.
    - What the platform supplies (clock, [URL] parser, network) is gathered in
      records that the functions take as arguments. *)

From Stdlib Require Import String Ascii List ZArith Bool Lia DecimalString.
Import ListNotations.
Open Scope string_scope.
Set Warnings "-register-all".

(** ** JavaScript strings *)

Module JsString.

(** [s.startsWith(p)] *)
Definition startsWith (s p : string) : bool := String.prefix p s.

(** [s.includes(p)] *)
Definition includes (s p : string) : bool :=
  match String.index 0 p s with
  | Some _ => true
  | None => false
  end.

(** [s.substring(0, n)] for [0 <= n]: the first [n] code units, fewer when
    the string is shorter. *)
Fixpoint take (n : nat) (s : string) : string :=
  match n, s with
  | O, _ => EmptyString
  | S _, EmptyString => EmptyString
  | S n', String c s' => String c (take n' s')
  end.

(** [s.split(sep)] for a one-unit separator: the pieces between the
    occurrences of [sep], empty pieces included; never the empty list. *)
Fixpoint split (sep : ascii) (s : string) : list string :=
  match s with
  | EmptyString => [EmptyString]
  | String c s' =>
      if Ascii.eqb c sep then EmptyString :: split sep s'
      else match split sep s' with
           | [] => [String c EmptyString]
           | piece :: pieces => String c piece :: pieces
           end
  end.

(** Whether [sep] does not occur in [s]. *)
Fixpoint free (sep : ascii) (s : string) : bool :=
  match s with
  | EmptyString => true
  | String c s' => negb (Ascii.eqb c sep) && free sep s'
  end.

(** [Boolean(s)]: a string is truthy unless it is empty. *)
Definition truthy (s : string) : bool :=
  match s with
  | EmptyString => false
  | String _ _ => true
  end.

(** Template-literal rendering of an integral number. *)
Definition ofNumber (n : Z) : string := NilZero.string_of_int (Z.to_int n).

(** The [WhiteSpace] and [LineTerminator] code units below 256: tab, line
    feed, vertical tab, form feed, carriage return, space, no-break space. *)
Definition isWhitespace (c : ascii) : bool :=
  let n := nat_of_ascii c in
  (((9 <=? n) && (n <=? 13)) || (n =? 32) || (n =? 160))%nat.

Fixpoint trimStart (s : string) : string :=
  match s with
  | EmptyString => EmptyString
  | String c s' => if isWhitespace c then trimStart s' else s
  end.

Fixpoint trimEnd (s : string) : string :=
  match s with
  | EmptyString => EmptyString
  | String c s' =>
      match trimEnd s' with
      | EmptyString =>
          if isWhitespace c then EmptyString else String c EmptyString
      | rest => String c rest
      end
  end.

(** [s.trim()] *)
Definition trim (s : string) : string := trimEnd (trimStart s).

(** The one-unit string holding a double quote. *)
Definition quote : string := String (ascii_of_nat 34) EmptyString.

End JsString.

(** ** JavaScript values, as [response.json()] delivers them *)

Inductive JsVal : Type :=
| JUndefined
| JNull
| JBool (b : bool)
| JNum (n : Z)
| JStr (s : string)
| JArr (items : list JsVal)
| JObj (fields : list (string * JsVal)).

Module Js.

(** [Boolean(v)] *)
Definition truthy (v : JsVal) : bool :=
  match v with
  | JUndefined | JNull => false
  | JBool b => b
  | JNum n => negb (n =? 0)%Z
  | JStr s => JsString.truthy s
  | JArr _ | JObj _ => true
  end.

(** [a || b] *)
Definition or (a b : JsVal) : JsVal := if truthy a then a else b.

Fixpoint lookup (k : string) (fields : list (string * JsVal)) : JsVal :=
  match fields with
  | [] => JUndefined
  | (k', v) :: rest => if String.eqb k k' then v else lookup k rest
  end.

(** [v.k] for the keys this program reads ([issues], [title],
    [description], [url], [creator_name], [detail], [client_id]), none of
    which a primitive or an array carries. [None] is the [TypeError] of
    reading a property of [null] or [undefined]. *)
Definition get (v : JsVal) (k : string) : option JsVal :=
  match v with
  | JUndefined | JNull => None
  | JObj fields => Some (lookup k fields)
  | _ => Some JUndefined
  end.

(** [v == null]: [v] is [null] or [undefined]. *)
Definition nullish (v : JsVal) : bool :=
  match v with
  | JUndefined | JNull => true
  | _ => false
  end.

(** [Array.isArray(v)] *)
Definition isArray (v : JsVal) : bool :=
  match v with
  | JArr _ => true
  | _ => false
  end.

(** [String(v)], the conversion [new Error(v)] applies to its message.
    Inside an array, [null] and [undefined] print as the empty string. *)
Fixpoint toString (v : JsVal) : string :=
  match v with
  | JUndefined => "undefined"
  | JNull => "null"
  | JBool true => "true"
  | JBool false => "false"
  | JNum n => JsString.ofNumber n
  | JStr s => s
  | JArr items =>
      let item v :=
        match v with
        | JUndefined | JNull => EmptyString
        | _ => toString v
        end in
      String.concat "," (map item items)
  | JObj _ => "[object Object]"
  end.

End Js.

(** ** Promise settlements and thrown values *)

(** What a [catch] clause can receive: an [Error] instance, of which the
    program reads only [message], or any other value. *)
Inductive Thrown : Type :=
| ErrorObj (message : string)
| NonError (v : JsVal).

Inductive Outcome (A : Type) : Type :=
| Resolved (a : A)
| Rejected (e : Thrown).
Arguments Resolved {A} a.
Arguments Rejected {A} e.

(** ** The platform *)

(** Build-time configuration, [import.meta.env]: a variable is a string or
    is not defined. *)
Record Env : Type := {
  VITE_API_BASE_URL : option string;
  VITE_WS_BASE_URL : option string
}.

(** [x || fallback] for an optional string [x], as in
    [import.meta.env.X || fallback]: the fallback replaces an undefined and
    an empty [x] alike. *)
Definition orElse (x : option string) (fallback : string) : string :=
  match x with
  | Some s => if JsString.truthy s then s else fallback
  | None => fallback
  end.

(** What the browser answers when the program asks: the page location, the
    clock, the [URL] parser, and the wording of the engine's own
    [TypeError]. [URL_pathname u] is [new URL(u).pathname], [None] when the
    constructor throws. *)
Record Platform : Type := {
  env : Env;
  location_protocol : string;
  location_host : string;
  now : Z;
  toISOString : Z -> string;
  URL_pathname : string -> option string;
  nullReadMessage : string -> string
}.

(** ** HTTP exchanges *)

(** The object given to [JSON.stringify] as request body. *)
Module IssueDetail.
Record t : Type := {
  title : string;
  description : string;
  creator_name : string;
  status : string;
  url : string
}.
End IssueDetail.

Inductive RequestBody : Type :=
| ProcessIssueBody (issue : IssueDetail.t)
| FetchIssuesBody (repo_url : string).

Record Request : Type := {
  req_url : string;
  req_method : string;
  req_headers : list (string * string);
  req_mode : option string;
  req_credentials : option string;
  req_body : RequestBody
}.

(** A [fetch] response. [json] is the settlement of [response.json()], read
    at the type [T] the caller declares for it; [text] is what
    [response.text()] resolves with and [parsed] is [JSON.parse] of that
    text, [Rejected] when it throws. *)
Record Response (T : Type) : Type := {
  ok : bool;
  status : Z;
  text : string;
  parsed : Outcome JsVal;
  json : Outcome T
}.
Arguments ok {T} _.
Arguments status {T} _.
Arguments text {T} _.
Arguments parsed {T} _.
Arguments json {T} _.

(** ** Computations that talk to the backend

    An asynchronous function is modelled by the requests it issued, in order,
    and the settlement of its promise. *)

Definition Net (A : Type) : Type := (list Request * Outcome A)%type.

Module Net.

Definition ret {A} (a : A) : Net A := ([], Resolved a).

Definition throw {A} (e : Thrown) : Net A := ([], Rejected e).

Definition bind {A B} (m : Net A) (k : A -> Net B) : Net B :=
  match m with
  | (sent, Resolved a) => let (sent', r) := k a in ((sent ++ sent')%list, r)
  | (sent, Rejected e) => (sent, Rejected e)
  end.

(** [try { m } catch (e) { handler e }] *)
Definition tryCatch {A} (m : Net A) (handler : Thrown -> Net A) : Net A :=
  match m with
  | (sent, Rejected e) => let (sent', r) := handler e in ((sent ++ sent')%list, r)
  | (sent, Resolved a) => (sent, Resolved a)
  end.

(** [await p] for an already settled promise. *)
Definition await {A} (o : Outcome A) : Net A := ([], o).

(** [fetch(url, init)] against a backend that answers [reply]. *)
Definition fetch {T} (reply : Request -> Outcome (Response T))
    (r : Request) : Net (Response T) :=
  ([r], reply r).

Definition requests {A} (m : Net A) : list Request := fst m.
Definition settled {A} (m : Net A) : Outcome A := snd m.

End Net.

Notation "x <- m ;; k" := (Net.bind m (fun x => k))
  (at level 61, m at next level, right associativity).

(** The body of the [if (!response.ok)] block shared by both services: the
    message of the [Error] it throws. *)
Definition errorMessageOf {T} (response : Response T) : string :=
  let errorText := text response in
  let backendError :=
    "Backend API error: " ++ JsString.ofNumber (status response)
      ++ " - " ++ JsString.take 100 errorText in
  match parsed response with
  | Resolved errorData =>
      match Js.get errorData "detail" with
      | Some detail =>
          Js.toString
            (Js.or detail
               (JStr ("API error: " ++ JsString.ofNumber (status response))))
      | None => backendError
      end
  | Rejected _ => backendError
  end.

(** ** The frontend's issue, interface [Issue] of [components/IssueCard]

    Fields as the services and pages read them. [user] and [login] are
    optional: the code reads them as [issue.user?.login]. *)

Module User.
Record t : Type := {
  login : option string;
  avatar_url : string
}.
End User.

Module Issue.
Record t : Type := {
  id : Z;
  number : Z;
  title : string;
  body : string;
  html_url : string;
  created_at : string;
  user : option User.t
}.

(** [issue.user?.login], [None] for [undefined]. *)
Definition userLogin (issue : t) : option string :=
  match user issue with
  | Some u => User.login u
  | None => None
  end.
End Issue.

(** ** services/apiService.ts *)

Module ApiService.

Definition API_BASE_URL (p : Platform) : string :=
  orElse (VITE_API_BASE_URL (env p)) "http://localhost:8000".

Definition WS_BASE_URL (p : Platform) : string :=
  orElse (VITE_WS_BASE_URL (env p)) "ws://localhost:8000".

Record ProcessIssueResponse : Type := {
  message : string;
  client_id : string
}.

Record WebSocketMessage : Type := {
  content : string;
  timestamp : Z;
  isAgent : bool
}.

(** The conversion of the frontend issue to the backend's [IssueDetail]. *)
Definition issueDetail (issue : Issue.t) : IssueDetail.t :=
  {| IssueDetail.title := Issue.title issue;
     IssueDetail.description := Issue.body issue;
     IssueDetail.creator_name := orElse (Issue.userLogin issue) "Unknown";
     IssueDetail.status := "open";
     IssueDetail.url := Issue.html_url issue |}.

Definition processIssueRequest (p : Platform) (issue : Issue.t) : Request :=
  {| req_url := API_BASE_URL p ++ "/process-issue/";
     req_method := "POST";
     req_headers := [("Content-Type", "application/json");
                     ("Accept", "application/json")];
     req_mode := None;
     req_credentials := None;
     req_body := ProcessIssueBody (issueDetail issue) |}.

Definition processIssueWithAgent (p : Platform)
    (backend : Request -> Outcome (Response ProcessIssueResponse))
    (issue : Issue.t) : Net ProcessIssueResponse :=
  Net.tryCatch
    (response <- Net.fetch backend (processIssueRequest p issue) ;;
     if negb (ok response)
     then Net.throw (ErrorObj (errorMessageOf response))
     else Net.await (json response))
    (fun error => Net.throw error).

(** The URL [createAgentWebSocket] opens. *)
Definition wsUrl (p : Platform) (clientId : string) : string :=
  if JsString.startsWith (WS_BASE_URL p) "/"
  then
    let protocol :=
      if String.eqb (location_protocol p) "https:" then "wss:" else "ws:" in
    let host := location_host p in
    protocol ++ "//" ++ host ++ WS_BASE_URL p ++ "/issue-logs/" ++ clientId
  else WS_BASE_URL p ++ "/issue-logs/" ++ clientId.

(** The handlers [createAgentWebSocket] installs on the socket. Each
    returns the messages it passes to the [onMessage] callback. *)

Definition onmessage (p : Platform) (text : string) : list WebSocketMessage :=
  [ {| content := text;
       timestamp := now p;
       isAgent := JsString.startsWith text "AGENT:" |} ].

Definition onerror (p : Platform) : list WebSocketMessage :=
  [ {| content := "Error: Connection to agent failed. Please try again.";
       timestamp := now p;
       isAgent := true |} ].

Definition onclose (p : Platform) (code : Z) : list WebSocketMessage :=
  if negb (code =? 1000)%Z
  then [ {| content :=
              "Connection to agent closed. The analysis may be complete.";
            timestamp := now p;
            isAgent := true |} ]
  else [].

End ApiService.

(** ** pages/ChatPage.tsx: the message consumer *)

Module ChatPage.

Record Message : Type := {
  id : string;
  content : string;
  isUser : bool;
  timestamp : Z
}.

Record State : Type := {
  messages : list Message;
  isTyping : bool
}.

(** The [onMessage] callback given to [createAgentWebSocket]. *)
Definition onMessage (p : Platform) (message : ApiService.WebSocketMessage)
    (st : State) : State :=
  let botMessage :=
    {| id := JsString.ofNumber (now p);
       content := ApiService.content message;
       isUser := negb (ApiService.isAgent message);
       timestamp := ApiService.timestamp message |} in
  {| messages := (messages st ++ [botMessage])%list;
     isTyping := false |}.

(** The class names a message bubble is rendered with. *)
Definition rowClass (message : Message) : string :=
  "flex " ++ (if isUser message then "justify-end" else "justify-start").

Definition bubbleClass (message : Message) : string :=
  "max-w-[85%] p-4 rounded-2xl shadow-sm "
    ++ (if isUser message
        then "bg-primary text-white rounded-br-none"
        else "bg-white text-gray-800 rounded-bl-none").

(** A text frame arriving on the socket, as the page sees it. *)
Definition receiveFrame (p : Platform) (text : string) (st : State) : State :=
  fold_left (fun st m => onMessage p m st) (ApiService.onmessage p text) st.

(** [socket.readyState] *)
Inductive ReadyState : Type := CONNECTING | OPEN | CLOSING | CLOSED.

(** The object given to [JSON.stringify] and sent on the socket;
    [issueId] is [issue?.number]. *)
Record Outgoing : Type := {
  message : string;
  issueId : option Z
}.

Inductive Effect : Type :=
| Send (o : Outgoing)
| ToastError (msg : string).

(** The component's state: what [State] holds and the text being typed. *)
Record Page : Type := {
  view : State;
  inputValue : string
}.

(** The message the page starts with. *)
Definition greeting (p : Platform) (issue : option Issue.t) : Message :=
  {| id := "1";
     content :=
       match issue with
       | Some i =>
           "I'm analyzing issue #" ++ JsString.ofNumber (Issue.number i)
             ++ ": " ++ Issue.title i ++ ". How can I help you resolve this?"
       | None =>
           "I don't have any issue details. Please go back and select an issue."
       end;
     isUser := false;
     timestamp := now p |}.

Definition initial (p : Platform) (issue : option Issue.t) : Page :=
  {| view := {| messages := [greeting p issue]; isTyping := false |};
     inputValue := EmptyString |}.

(** [handleSendMessage]. [socket] is the socket held in state, [None] for
    [null]; [sendThrows] tells whether [socket.send] throws. *)
Definition handleSendMessage (p : Platform) (issue : option Issue.t)
    (socket : option ReadyState) (sendThrows : bool) (page : Page)
    : Page * list Effect :=
  if negb (JsString.truthy (JsString.trim (inputValue page)))
  then (page, [])
  else
    let userMessage :=
      {| id := JsString.ofNumber (now p);
         content := inputValue page;
         isUser := true;
         timestamp := now p |} in
    let shown := (messages (view page) ++ [userMessage])%list in
    let sending :=
      match socket with
      | Some OPEN => true
      | _ => false
      end in
    if sending
    then if sendThrows
         then ({| view := {| messages := shown; isTyping := false |};
                  inputValue := EmptyString |},
               [ToastError "Failed to send message"])
         else ({| view := {| messages := shown; isTyping := true |};
                  inputValue := EmptyString |},
               [Send {| message := inputValue page;
                        issueId := option_map Issue.number issue |}])
    else ({| view := {| messages := shown; isTyping := false |};
             inputValue := EmptyString |},
          [ToastError "Connection to agent lost. Please try again."]).

(** The Send button's [disabled] attribute. *)
Definition sendDisabled (page : Page) : bool :=
  negb (JsString.truthy (JsString.trim (inputValue page))).

(** [handleKeyDown]: whether the default action is prevented, and what
    [handleSendMessage] does when it is called. *)
Definition handleKeyDown (p : Platform) (issue : option Issue.t)
    (socket : option ReadyState) (sendThrows : bool)
    (key : string) (shiftKey : bool) (page : Page)
    : bool * (Page * list Effect) :=
  if String.eqb key "Enter" && negb shiftKey
  then (true, handleSendMessage p issue socket sendThrows page)
  else (false, (page, [])).

(** What can happen to a mounted page. *)
Inductive Event : Type :=
| Typed (value : string)
| Submit (socket : option ReadyState) (sendThrows : bool)
| Frame (text : string)
| SocketError
| SocketClose (code : Z).

Definition deliver (p : Platform) (ms : list ApiService.WebSocketMessage)
    (page : Page) : Page :=
  {| view := fold_left (fun st m => onMessage p m st) ms (view page);
     inputValue := inputValue page |}.

Definition step (p : Platform) (issue : option Issue.t) (page : Page)
    (e : Event) : Page :=
  match e with
  | Typed value => {| view := view page; inputValue := value |}
  | Submit socket sendThrows =>
      fst (handleSendMessage p issue socket sendThrows page)
  | Frame text => deliver p (ApiService.onmessage p text) page
  | SocketError => deliver p (ApiService.onerror p) page
  | SocketClose code => deliver p (ApiService.onclose p code) page
  end.

Definition run (p : Platform) (issue : option Issue.t) (events : list Event)
    (page : Page) : Page :=
  fold_left (step p issue) events page.

(** [location.state as LocationState], [None] when the page was opened
    without one. *)
Record LocationState : Type := {
  issue : Issue.t;
  clientId : string
}.

Inductive Screen : Type :=
| Missing (heading : string) (advice : string)
| Chat.

(** What the component renders, by its [if (!issue || !clientId)]. *)
Definition screen (loc : option LocationState) : Screen :=
  match loc with
  | None =>
      Missing "No issue selected"
        "Please go back and select an issue to analyze."
  | Some l =>
      if negb (JsString.truthy (clientId l))
      then Missing "Missing agent connection ID"
             "There was a problem connecting to the agent. Please try again."
      else Chat
  end.

(** The effect that opens the socket: the URL connected to, if any. *)
Definition connect (p : Platform) (loc : option LocationState)
    : option string :=
  match loc with
  | Some l =>
      if JsString.truthy (clientId l)
      then Some (ApiService.wsUrl p (clientId l))
      else None
  | None => None
  end.

(** The effect's cleanup closes the socket only when it is open. *)
Definition cleanupCloses (readyState : ReadyState) : bool :=
  match readyState with
  | OPEN => true
  | _ => false
  end.

End ChatPage.

(** ** services/githubService.ts *)

Module GithubService.

Record RepoInfo : Type := {
  owner : string;
  repo : string
}.

(** [pathname.split('/').filter(Boolean)] *)
Definition pathParts (pathname : string) : list string :=
  filter JsString.truthy (JsString.split "/" pathname).

Definition normalizedUrl (url : string) : string :=
  if JsString.includes url "github.com"
  then url
  else "https://github.com/" ++ url.

(** [None] is the [null] the source returns, also from its [catch]. *)
Definition extractRepoInfo (p : Platform) (url : string) : option RepoInfo :=
  match URL_pathname p (normalizedUrl url) with
  | Some pathname =>
      let parts := pathParts pathname in
      if (2 <=? length parts)%nat
      then Some {| owner := nth 0 parts EmptyString;
                   repo := nth 1 parts EmptyString |}
      else None
  | None => None
  end.

(** The object literal built for each backend issue. The backend issue is
    of type [any], so the fields copied from it are arbitrary values. *)
Record AdaptedUser : Type := {
  login : JsVal;
  avatar_url : string
}.

Record AdaptedIssue : Type := {
  id : Z;
  number : Z;
  title : JsVal;
  body : JsVal;
  html_url : JsVal;
  created_at : string;
  user : AdaptedUser
}.

(** [v.k] where reading from [null] or [undefined] throws. *)
Definition read (p : Platform) (v : JsVal) (k : string) : Outcome JsVal :=
  match Js.get v k with
  | Some x => Resolved x
  | None => Rejected (ErrorObj (nullReadMessage p k))
  end.

(** The callback of [data.issues.map]. *)
Definition adapt (p : Platform) (index : nat) (backendIssue : JsVal)
    : Outcome AdaptedIssue :=
  match read p backendIssue "title" with
  | Rejected e => Rejected e
  | Resolved title =>
  match read p backendIssue "description" with
  | Rejected e => Rejected e
  | Resolved description =>
  match read p backendIssue "url" with
  | Rejected e => Rejected e
  | Resolved url =>
  match read p backendIssue "creator_name" with
  | Rejected e => Rejected e
  | Resolved creator_name =>
      Resolved
        {| id := (Z.of_nat index + 1)%Z;
           number := (Z.of_nat index + 1)%Z;
           title := Js.or title (JStr "Untitled Issue");
           body := Js.or description (JStr EmptyString);
           html_url := url;
           created_at := toISOString p (now p);
           user :=
             {| login := Js.or creator_name (JStr "Unknown User");
                avatar_url := "https://github.githubassets.com/images/modules/logos_page/GitHub-Mark.png" |} |}
  end end end end.

(** [items.map(f)] from index [index] on; the first callback that throws
    ends the traversal. *)
Fixpoint mapFrom {B} (f : nat -> JsVal -> Outcome B) (index : nat)
    (items : list JsVal) : Outcome (list B) :=
  match items with
  | [] => Resolved []
  | item :: rest =>
      match f index item with
      | Rejected e => Rejected e
      | Resolved b =>
          match mapFrom f (S index) rest with
          | Rejected e => Rejected e
          | Resolved bs => Resolved (b :: bs)
          end
      end
  end.

(** [data && data.issues && Array.isArray(data.issues)], giving the array
    when the test holds. *)
Definition issuesArray (p : Platform) (data : JsVal)
    : Outcome (option (list JsVal)) :=
  if Js.truthy data
  then match read p data "issues" with
       | Rejected e => Rejected e
       | Resolved issues =>
           if Js.truthy issues
           then match issues with
                | JArr items => Resolved (Some items)
                | _ => Resolved None
                end
           else Resolved None
       end
  else Resolved None.

(** The transformation of the backend's answer, lines 100 to 125. *)
Definition adaptResponse (p : Platform) (data : JsVal)
    : Outcome (list AdaptedIssue) :=
  match issuesArray p data with
  | Rejected e => Rejected e
  | Resolved (Some items) => mapFrom (adapt p) 0 items
  | Resolved None => Resolved []
  end.

Definition formattedUrl (repoUrl : string) : string :=
  if negb (JsString.startsWith repoUrl "http")
  then "https://" ++ repoUrl
  else repoUrl.

Definition fetchIssuesRequest (p : Platform) (info : RepoInfo) : Request :=
  let cleanRepoUrl := "https://github.com/" ++ owner info ++ "/" ++ repo info in
  let apiBaseUrl := orElse (VITE_API_BASE_URL (env p)) "http://localhost:8000" in
  {| req_url := apiBaseUrl ++ "/fetch-issues/";
     req_method := "POST";
     req_headers := [("Content-Type", "application/json");
                     ("Accept", "application/json")];
     req_mode := Some "cors";
     req_credentials := Some "omit";
     req_body := FetchIssuesBody cleanRepoUrl |}.

Definition invalidUrl : Thrown :=
  ErrorObj "Invalid GitHub repository URL format".

Definition fetchGitHubIssues (p : Platform)
    (backend : Request -> Outcome (Response JsVal))
    (repoUrl : string) : Net (list AdaptedIssue) :=
  match extractRepoInfo p (formattedUrl repoUrl) with
  | None => Net.throw invalidUrl
  | Some repoInfo =>
      Net.tryCatch
        (response <- Net.fetch backend (fetchIssuesRequest p repoInfo) ;;
         if negb (ok response)
         then Net.throw (ErrorObj (errorMessageOf response))
         else data <- Net.await (json response) ;;
              Net.await (adaptResponse p data))
        (fun error =>
           match error with
           | ErrorObj _ => Net.throw error
           | NonError _ =>
               Net.throw (ErrorObj "An unknown error occurred while fetching issues from the backend.")
           end)
  end.

Record AskResult : Type := {
  success : bool;
  message : string;
  clientId : option string
}.

Definition askBotToResolve (p : Platform)
    (backend : Request -> Outcome (Response ApiService.ProcessIssueResponse))
    (issue : Issue.t) : Net AskResult :=
  Net.tryCatch
    (response <- ApiService.processIssueWithAgent p backend issue ;;
     Net.ret
       {| success := true;
          message := "Bot is analyzing issue #"
                       ++ JsString.ofNumber (Issue.number issue)
                       ++ ": " ++ Issue.title issue;
          clientId := Some (ApiService.client_id response) |})
    (fun error =>
       Net.ret
         {| success := false;
            message :=
              match error with
              | ErrorObj m => m
              | NonError _ =>
                  "An unknown error occurred while processing the issue"
              end;
            clientId := None |}).

End GithubService.

(** ** The session broker

    The backend (the FastAPI application under [backend/app]) is not part of
    the sources at hand. The broker is therefore modelled from the design
    document: sections 3 (data model), 4.2 (session and event queue), 4.4
    (streaming gateway) and 6 (external interfaces). *)

Module Broker.

(** Modelled from the spec: the origin tag of a [LogEvent] (section 3); the
    backend's event type is missing. *)
Inductive Origin : Type := System | Agent | Error.

(** Modelled from the spec: [LogEvent] (section 3); the backend's event
    record is missing. *)
Record LogEvent : Type := {
  content : string;
  origin : Origin;
  sequence : nat
}.

(** Modelled from the spec: the session states (section 3); the backend's
    session type is missing. *)
Inductive SessionState : Type :=
  Pending | Running | Completed | Failed | Closed.

(** Modelled from the spec: [Session] (section 3); the backend's session
    record is missing. *)
Record Session : Type := {
  id : string;
  state : SessionState;
  events : list LogEvent;
  subscriberAttached : bool;
  createdAt : Z
}.

(** Modelled from the spec: the error taxonomy of section 7, as far as the
    session and the gateway raise it; the backend's error types are
    missing. *)
Inductive BrokerError : Type := UnknownSession | AlreadyAttached.

(** Modelled from the spec: what a broker operation gives its caller, a
    value or one of the errors of section 7; the backend's operations are
    missing. *)
Inductive Result (A : Type) : Type :=
| Ok (a : A)
| Err (e : BrokerError).
Arguments Ok {A} a.
Arguments Err {A} e.

(** Modelled from the spec: the session [Registry.create] makes (section
    4.1): [Pending], no events, no subscriber. The backend's registry is
    missing. *)
Definition create (token : string) (time : Z) : Session :=
  {| id := token;
     state := Pending;
     events := [];
     subscriberAttached := false;
     createdAt := time |}.

Definition isClosed (st : SessionState) : bool :=
  match st with
  | Closed => true
  | _ => false
  end.

(** Modelled from the spec: the position of a state in
    [Pending -> Running -> {Completed|Failed} -> Closed] (section 3); the
    backend's transition code is missing. *)
Definition rank (st : SessionState) : nat :=
  match st with
  | Pending => 0
  | Running => 1
  | Completed | Failed => 2
  | Closed => 3
  end.

(** Modelled from the spec: a state transition, refused unless it moves
    forward (section 3); a session that closes holds no subscriber. The
    backend's transition code is missing. *)
Definition transition (s : Session) (st : SessionState) : Session :=
  if (rank (state s) <? rank st)%nat
  then {| id := id s;
          state := st;
          events := events s;
          subscriberAttached :=
            if isClosed st then false else subscriberAttached s;
          createdAt := createdAt s |}
  else s.

(** Modelled from the spec: the storing half of [append] (section 4.2),
    which assigns the next sequence number, counted from 0, and stores the
    event after those already held. The backend's queue is missing. *)
Definition store (s : Session) (c : string) (o : Origin) : Session :=
  {| id := id s;
     state := state s;
     events := (events s
                ++ [ {| content := c; origin := o;
                        sequence := length (events s) |} ])%list;
     subscriberAttached := subscriberAttached s;
     createdAt := createdAt s |}.

(** Modelled from the spec: [append] (section 4.2), a silent no-op on a
    [Closed] session. The backend's queue is missing. *)
Definition append (s : Session) (c : string) (o : Origin) : Result Session :=
  if isClosed (state s) then Ok s else Ok (store s c o).

(** Modelled from the spec: a producer making one [append] call after the
    other, stopping at the first error it is given (section 4.3, [onEvent]).
    The backend's dispatcher is missing. *)
Fixpoint appendAll (calls : list (string * Origin)) (s : Session)
    : Result Session :=
  match calls with
  | [] => Ok s
  | (c, o) :: rest =>
      match append s c o with
      | Ok s' => appendAll rest s'
      | Err e => Err e
      end
  end.

(** Modelled from the spec: [EventCursor] (section 4.2), a subscriber's
    place in the session's history. The backend's cursor is missing. *)
Record EventCursor : Type := { position : nat }.

(** Modelled from the spec: [subscribe] (section 4.2); a fresh cursor
    always replays from sequence 0. The backend's queue is missing. *)
Definition subscribe (s : Session) : EventCursor := {| position := 0 |}.

(** Modelled from the spec: what one pull on a cursor gives (section 4.2):
    an event and the cursor after it, suspension, or the end of the stream.
    The backend's cursor is missing. *)
Inductive CursorStep : Type :=
| Yield (e : LogEvent) (c : EventCursor)
| Suspend
| Done.

(** Modelled from the spec: one pull on the cursor (section 4.2): the next
    buffered event if there is one, otherwise the end of the stream when
    the session is [Closed], otherwise suspension until an event is
    appended. The backend's cursor is missing. *)
Definition next (s : Session) (c : EventCursor) : CursorStep :=
  match nth_error (events s) (position c) with
  | Some e => Yield e {| position := S (position c) |}
  | None => if isClosed (state s) then Done else Suspend
  end.

(** Modelled from the spec: the cursor pulled until it suspends or ends, at
    most [fuel] times; the events yielded, the cursor reached, and whether
    the stream ended. The backend's forwarding loop is missing. *)
Fixpoint pull (fuel : nat) (s : Session) (c : EventCursor)
    : list LogEvent * EventCursor * bool :=
  match fuel with
  | O => ([], c, false)
  | S fuel' =>
      match next s c with
      | Yield e c' =>
          let '(es, c'', ended) := pull fuel' s c' in (e :: es, c'', ended)
      | Suspend => ([], c, false)
      | Done => ([], c, true)
      end
  end.

(** Modelled from the spec: what the producer and the subscriber do to a
    session, one at a time (section 5): the Executor's [onEvent] and the
    gateway's pull. The backend's tasks are missing. *)
Inductive Action : Type :=
| Emit (c : string) (o : Origin)
| Poll.

(** Modelled from the spec: a session with its one attached subscriber
    (section 4.4): the cursor and what it has been given so far. The
    backend's gateway is missing. *)
Record Stream : Type := {
  session : Session;
  cursor : EventCursor;
  delivered : list LogEvent
}.

(** Modelled from the spec: one step of the producer or of the subscriber
    on the shared session (section 5): the two meet only in the event
    queue. The backend's tasks are missing. *)
Definition step (st : Stream) (a : Action) : Stream :=
  match a with
  | Emit c o =>
      match append (session st) c o with
      | Ok s' => {| session := s'; cursor := cursor st;
                    delivered := delivered st |}
      | Err _ => st
      end
  | Poll =>
      match next (session st) (cursor st) with
      | Yield e c' => {| session := session st; cursor := c';
                         delivered := (delivered st ++ [e])%list |}
      | Suspend | Done => st
      end
  end.

(** Modelled from the spec: the steps of a schedule taken one after the
    other; mutation of a session is serialized (section 5). The backend's
    tasks are missing. *)
Definition run (schedule : list Action) (st : Stream) : Stream :=
  fold_left step schedule st.

(** The [append] calls of a schedule, in order. *)
Fixpoint emitted (schedule : list Action) : list (string * Origin) :=
  match schedule with
  | [] => []
  | Emit c o :: rest => (c, o) :: emitted rest
  | Poll :: rest => emitted rest
  end.

Definition payload (e : LogEvent) : string * Origin := (content e, origin e).

(** What the subscriber has received by the time its cursor next suspends
    or ends: what was delivered so far and what the cursor still yields. *)
Definition seenBy (st : Stream) : list LogEvent :=
  (delivered st
   ++ fst (fst (pull (S (length (events (session st))))
                  (session st) (cursor st))))%list.

(** Modelled from the spec: a subscriber attaching to a session that
    already holds its history (section 4.4, Streaming). The backend's
    gateway is missing. *)
Definition attach (s : Session) : Stream :=
  {| session := s; cursor := subscribe s; delivered := [] |}.

(** The stored events are numbered 0, 1, 2, ... in the order stored. *)
Definition numbered (s : Session) : Prop :=
  map sequence (events s) = seq 0 (length (events s)).

(** The subscriber has been given an initial part of the stored events and
    its cursor stands right after it. *)
Definition inStep (st : Stream) : Prop :=
  position (cursor st) <= length (events (session st))
  /\ delivered st = firstn (position (cursor st)) (events (session st)).

(** Modelled from the spec: the reasons a stream connection is closed with
    (sections 4.4 and 6). The backend's gateway is missing. *)
Inductive CloseReason : Type :=
| NormalClosure
| Refused (e : BrokerError).

(** Modelled from the spec: the close code on the wire. Normal closure is
    WebSocket code 1000; the spec asks only that a refusal be distinct, so
    its code is left to [refusal]. The backend's gateway is missing. *)
Definition closeCode (refusal : BrokerError -> Z) (r : CloseReason) : Z :=
  match r with
  | NormalClosure => 1000
  | Refused e => refusal e
  end.

(** Modelled from the spec: a server-to-client text frame (section 6),
    prefixed [AGENT:] for agent-origin content and unprefixed otherwise.
    The backend's gateway is missing. *)
Definition frame (e : LogEvent) : string :=
  match origin e with
  | Agent => "AGENT:" ++ content e
  | System | Error => content e
  end.

(** Modelled from the spec: what the gateway does to the connection
    (section 4.4): send a text frame or close it. The backend's gateway is
    missing. *)
Inductive Output : Type :=
| SendText (text : string)
| CloseConnection (r : CloseReason).

(** Modelled from the spec: the gateway's forwarding loop (section 4.4,
    states Streaming and Terminal), run until the cursor suspends or ends:
    every yielded event is sent as a frame, and the end of the cursor
    closes the connection with the normal reason. The backend's gateway is
    missing. *)
Definition forward (fuel : nat) (s : Session) (c : EventCursor)
    : list Output * EventCursor :=
  let '(es, c', ended) := pull fuel s c in
  ((map (fun e => SendText (frame e)) es
    ++ (if ended then [CloseConnection NormalClosure] else []))%list, c').

End Broker.

(** ** components/IssueCard.tsx *)

Module IssueCard.

(** The body shown on a collapsed card. *)
Definition truncatedBody (issue : Issue.t) : string :=
  if JsString.truthy (Issue.body issue)
  then if (150 <? String.length (Issue.body issue))%nat
       then JsString.take 150 (Issue.body issue) ++ "..."
       else Issue.body issue
  else "No description provided.".

(** The body shown on the card, expanded or not. *)
Definition bodyText (expanded : bool) (issue : Issue.t) : string :=
  if expanded
  then if JsString.truthy (Issue.body issue)
       then Issue.body issue
       else "No description provided."
  else truncatedBody issue.

Definition buttonLabel (isProcessing : bool) : string :=
  if isProcessing then "Processing..." else "Ask Bot to Resolve".

End IssueCard.

(** ** components/SearchBar.tsx *)

Module SearchBar.

Inductive Effect : Type :=
| PreventDefault
| ToastError (msg : string)
| OnSearch (repoUrl : string).

(** [handleSubmit], with [repoUrl] the text in the field. *)
Definition handleSubmit (repoUrl : string) : list Effect :=
  PreventDefault
  :: (if negb (JsString.truthy (JsString.trim repoUrl))
      then [ToastError "Please enter a GitHub repository URL"]
      else if negb (JsString.includes repoUrl "github.com/")
      then [ToastError "Please enter a valid GitHub repository URL"]
      else [OnSearch repoUrl]).

End SearchBar.

(** ** components/ChatInterface.tsx *)

Module ChatInterface.

Record Message : Type := {
  id : string;
  content : string;
  isUser : bool;
  timestamp : Z
}.

Record State : Type := {
  messages : list Message;
  inputValue : string
}.

Definition initial (p : Platform) (issue : Issue.t) : State :=
  {| messages :=
       [ {| id := "1";
            content :=
              "I'm analyzing issue #" ++ JsString.ofNumber (Issue.number issue)
                ++ ": " ++ Issue.title issue
                ++ ". How can I help you resolve this?";
            isUser := false;
            timestamp := now p |} ];
     inputValue := EmptyString |}.

(** [handleSendMessage]: the new state and, when a message was sent, the
    input value the timer's callback has captured. *)
Definition handleSendMessage (p : Platform) (st : State)
    : State * option string :=
  if negb (JsString.truthy (JsString.trim (inputValue st)))
  then (st, None)
  else
    ({| messages :=
          (messages st
           ++ [ {| id := JsString.ofNumber (now p);
                   content := inputValue st;
                   isUser := true;
                   timestamp := now p |} ])%list;
        inputValue := EmptyString |},
     Some (inputValue st)).

(** The timer's callback, run at the platform's later time. *)
Definition reply (p : Platform) (captured : string) (st : State) : State :=
  {| messages :=
       (messages st
        ++ [ {| id := JsString.ofNumber (now p + 1);
                content :=
                  "I'm analyzing your request regarding " ++ JsString.quote
                    ++ captured ++ JsString.quote
                    ++ ". This is a demo response.";
                isUser := false;
                timestamp := now p |} ])%list;
     inputValue := inputValue st |}.

End ChatInterface.

(** ** pages/Index.tsx *)

Module Index.

(** What a handler does, in the order it does it: state setters,
    navigation, toasts. *)
Inductive Action : Type :=
| SetIsLoading (b : bool)
| SetIssues (issues : list GithubService.AdaptedIssue)
| SetProcessingIssueId (id : option Z)
| Navigate (path : string) (issue : Issue.t) (clientId : string)
| ToastInfo (msg : string)
| ToastSuccess (msg : string)
| ToastError (msg : string).

Record State : Type := {
  issues : list GithubService.AdaptedIssue;
  isLoading : bool;
  processingIssueId : option Z
}.

Definition initial : State :=
  {| issues := []; isLoading := false; processingIssueId := None |}.

Definition apply (st : State) (a : Action) : State :=
  match a with
  | SetIsLoading b =>
      {| issues := issues st; isLoading := b;
         processingIssueId := processingIssueId st |}
  | SetIssues l =>
      {| issues := l; isLoading := isLoading st;
         processingIssueId := processingIssueId st |}
  | SetProcessingIssueId o =>
      {| issues := issues st; isLoading := isLoading st;
         processingIssueId := o |}
  | Navigate _ _ _ | ToastInfo _ | ToastSuccess _ | ToastError _ => st
  end.

Definition after (actions : list Action) (st : State) : State :=
  fold_left apply actions st.

Definition handleSearch (p : Platform)
    (backend : Request -> Outcome (Response JsVal)) (repoUrl : string)
    : list Request * list Action :=
  let call := GithubService.fetchGitHubIssues p backend repoUrl in
  (Net.requests call,
   ([SetIsLoading true]
    ++ match Net.settled call with
       | Resolved fetchedIssues =>
           SetIssues fetchedIssues
           :: (if (length fetchedIssues =? 0)%nat
               then [ToastInfo "No open issues found in this repository"]
               else [ToastSuccess
                       ("Found "
                        ++ JsString.ofNumber (Z.of_nat (length fetchedIssues))
                        ++ " issues")])
       | Rejected error =>
           [ToastError
              match error with
              | ErrorObj m => m
              | NonError _ => "Failed to fetch issues"
              end;
            SetIssues []]
       end
    ++ [SetIsLoading false])%list).

Definition handleAskBot (p : Platform)
    (backend : Request -> Outcome (Response ApiService.ProcessIssueResponse))
    (issue : Issue.t) : list Request * list Action :=
  let call := GithubService.askBotToResolve p backend issue in
  (Net.requests call,
   ([SetProcessingIssueId (Some (Issue.id issue))]
    ++ match Net.settled call with
       | Resolved result =>
           match GithubService.success result, GithubService.clientId result with
           | true, Some (String c rest) =>
               [Navigate "/chat" issue (String c rest);
                ToastSuccess (GithubService.message result)]
           | _, _ =>
               [ToastError
                  (if JsString.truthy (GithubService.message result)
                   then GithubService.message result
                   else "Failed to process request")]
           end
       | Rejected _ => [ToastError "Failed to process request"]
       end
    ++ [SetProcessingIssueId None])%list).

Inductive MainView : Type :=
| Loading
| Cards (shown : list GithubService.AdaptedIssue) (processing : list bool)
| Placeholder (text : string).

(** What [main] shows: the loading line, one card per issue with its
    [isProcessing] flag, or the placeholder paragraph. *)
Definition mainView (st : State) : MainView :=
  if isLoading st then Loading
  else if (0 <? length (issues st))%nat
  then Cards (issues st)
         (map (fun i =>
                 match processingIssueId st with
                 | Some n => (n =? GithubService.id i)%Z
                 | None => false
                 end)
              (issues st))
  else Placeholder
         (if (length (issues st) =? 0)%nat && Bool.eqb (isLoading st) false
          then "Search for a GitHub repository to view its issues"
          else "No open issues found in this repository").

End Index.

(** ** A concrete platform, for running the definitions *)

Module Example.

(** The piece of [s] before the first of the code units [stops], and the
    rest from that unit on. *)
Fixpoint breakAt (stops : list ascii) (s : string) : string * string :=
  match s with
  | EmptyString => (EmptyString, EmptyString)
  | String c s' =>
      if existsb (Ascii.eqb c) stops then (EmptyString, s)
      else let (a, b) := breakAt stops s' in (String c a, b)
  end.

Fixpoint dropString (n : nat) (s : string) : string :=
  match n, s with
  | O, _ => s
  | S _, EmptyString => EmptyString
  | S n', String _ s' => dropString n' s'
  end.

(** [new URL(u).pathname] for the plain absolute URLs of the examples:
    [http://] or [https://], a host, then a path that needs no escaping
    and has no dot segments, up to a query or fragment. Any other input is
    answered as a parse failure. *)
Definition pathnameOf (u : string) : option string :=
  let afterScheme :=
    if JsString.startsWith u "https://" then Some (dropString 8 u)
    else if JsString.startsWith u "http://" then Some (dropString 7 u)
    else None in
  match afterScheme with
  | None => None
  | Some rest =>
      let (host, tail) := breakAt ["/"; "?"; "#"]%char rest in
      if JsString.truthy host
      then let (path, _) := breakAt ["?"; "#"]%char tail in
           Some (if JsString.truthy path then path else "/")
      else None
  end.

(** The deployment of the repository's Dockerfile ([VITE_API_BASE_URL=/api],
    [VITE_WS_BASE_URL=/ws]) served over https, the clock stopped. *)
Definition platform : Platform :=
  {| env := {| VITE_API_BASE_URL := Some "/api";
               VITE_WS_BASE_URL := Some "/ws" |};
     location_protocol := "https:";
     location_host := "issues.example.org";
     now := 1700000000000;
     toISOString := fun _ => "2023-11-14T22:13:20.000Z";
     URL_pathname := pathnameOf;
     nullReadMessage :=
       fun k => "Cannot read properties of null (reading '" ++ k ++ "')" |}.

Definition issue : Issue.t :=
  {| Issue.id := 1;
     Issue.number := 1;
     Issue.title := "Crash on empty input";
     Issue.body := "Steps to reproduce";
     Issue.html_url := "https://github.com/facebook/react/issues/1";
     Issue.created_at := "2023-11-14T22:13:20.000Z";
     Issue.user := Some {| User.login := Some "octocat";
                           User.avatar_url := "https://avatars.githubusercontent.com/u/583231" |} |}.

(** An issue whose author's login is present and empty. *)
Definition issueWithEmptyLogin : Issue.t :=
  {| Issue.id := 2;
     Issue.number := 2;
     Issue.title := "Crash on empty input";
     Issue.body := "Steps to reproduce";
     Issue.html_url := "https://github.com/facebook/react/issues/2";
     Issue.created_at := "2023-11-14T22:13:20.000Z";
     Issue.user :=
       Some {| User.login := Some EmptyString;
               User.avatar_url :=
                 "https://avatars.githubusercontent.com/u/583231" |} |}.

Definition accepted : ApiService.ProcessIssueResponse :=
  {| ApiService.message := "Issue processing started";
     ApiService.client_id := "3f2a9c" |}.

(** A backend that accepts every submission. *)
Definition acceptingBackend (r : Request)
    : Outcome (Response ApiService.ProcessIssueResponse) :=
  Resolved {| ok := true; status := 200; text := EmptyString;
              parsed := Rejected (ErrorObj "Unexpected end of JSON input");
              json := Resolved accepted |}.

(** A backend that cannot be reached. *)
Definition unreachable {T} (r : Request) : Outcome (Response T) :=
  Rejected (ErrorObj "Failed to fetch").

(** A backend answering 200 with the JSON body [data]. *)
Definition answering (data : JsVal) (r : Request) : Outcome (Response JsVal) :=
  Resolved {| ok := true; status := 200; text := EmptyString;
              parsed := Resolved data; json := Resolved data |}.

Definition oneIssue : JsVal :=
  JObj [("issues",
         JArr [JObj [("title", JStr "Crash on empty input");
                     ("url", JStr "https://github.com/facebook/react/issues/1")]])].

Definition nullIssue : JsVal := JObj [("issues", JArr [JNull])].

(** The scenario of the design document: one event before the subscriber
    attaches, two while it is attached. *)
Definition history : list (string * Broker.Origin) :=
  [("starting analysis", Broker.System)].

Definition schedule : list Broker.Action :=
  [Broker.Poll;
   Broker.Emit "found root cause" Broker.Agent;
   Broker.Poll;
   Broker.Poll;
   Broker.Emit "done" Broker.Agent].

Definition started : Broker.Session :=
  Broker.transition (Broker.create "3f2a9c" 1700000000000) Broker.Running.

Definition buffered : Broker.Session :=
  Broker.store started "starting analysis" Broker.System.

(** A backend answering 404 with the JSON body [{ detail: ... }]. *)
Definition notFoundBody : JsVal :=
  JObj [("detail", JStr "Repository not found")].

Definition notFound (r : Request) : Outcome (Response JsVal) :=
  Resolved
    {| ok := false; status := 404;
       text := "{" ++ JsString.quote ++ "detail" ++ JsString.quote ++ ":"
                 ++ JsString.quote ++ "Repository not found" ++ JsString.quote
                 ++ "}";
       parsed := Resolved notFoundBody;
       json := Resolved notFoundBody |}.

(** A backend refusing a submission with 503 and a [detail]; the body does
    not have the shape of a [ProcessIssueResponse]. *)
Definition overloaded (r : Request)
    : Outcome (Response ApiService.ProcessIssueResponse) :=
  Resolved
    {| ok := false; status := 503;
       text := "{" ++ JsString.quote ++ "detail" ++ JsString.quote ++ ":"
                 ++ JsString.quote ++ "Agent is busy" ++ JsString.quote ++ "}";
       parsed := Resolved (JObj [("detail", JStr "Agent is busy")]);
       json := Rejected (ErrorObj "body is not a ProcessIssueResponse") |}.

End Example.

(** * Properties *)

(** ** Strings *)

Lemma prefix_append (p r : string) : String.prefix p (p ++ r) = true.
Proof.
  induction p as [|c p IH]; simpl.
  - now destruct r.
  - destruct (ascii_dec c c) as [_|ne]; [exact IH | now elim ne].
Qed.

Lemma prefix_split (p s : string) :
  String.prefix p s = true -> exists r, s = p ++ r.
Proof.
  revert s; induction p as [|c p IH]; intros s H.
  - now exists s.
  - destruct s as [|d s]; simpl in H; [discriminate H|].
    destruct (ascii_dec c d) as [e|ne]; [subst d|discriminate H].
    destruct (IH _ H) as [r e]. exists r. simpl. now rewrite <- e.
Qed.

Lemma startsWith_iff (s p : string) :
  JsString.startsWith s p = true <-> exists r, s = p ++ r.
Proof.
  unfold JsString.startsWith; split.
  - apply prefix_split.
  - intros [r ->]. apply prefix_append.
Qed.

Lemma append_assoc (a b c : string) : (a ++ b) ++ c = a ++ (b ++ c).
Proof. induction a as [|x a IH]; simpl; [reflexivity | now rewrite IH]. Qed.

(** ** The stream connection, client side *)

(** C2. A text frame arriving on the stream connection is handed to the
    consumer as one message carrying the frame's text, marked agent-origin
    exactly when the text begins with [AGENT:]; the chat page appends one
    message for it and renders it on the other side, in the other colours,
    exactly when it is so marked. *)
Theorem text_frame_classified_by_prefix
    (p : Platform) (text : string) (st : ChatPage.State) :
  exists m bm,
    ApiService.onmessage p text = [m]
    /\ ApiService.content m = text
    /\ (ApiService.isAgent m = true <-> exists rest, text = "AGENT:" ++ rest)
    /\ ChatPage.messages (ChatPage.receiveFrame p text st)
         = (ChatPage.messages st ++ [bm])%list
    /\ ChatPage.content bm = text
    /\ (ChatPage.isUser bm = false <-> ApiService.isAgent m = true)
    /\ (ChatPage.rowClass bm = "flex justify-start"
         <-> ApiService.isAgent m = true)
    /\ (ChatPage.bubbleClass bm
           = "max-w-[85%] p-4 rounded-2xl shadow-sm bg-white text-gray-800 rounded-bl-none"
         <-> ApiService.isAgent m = true).
Proof.
  eexists; eexists.
  split; [reflexivity|].
  split; [reflexivity|].
  split; [apply startsWith_iff|].
  split; [reflexivity|].
  split; [reflexivity|].
  cbn [ApiService.isAgent ChatPage.isUser ChatPage.rowClass ChatPage.bubbleClass].
  destruct (JsString.startsWith text "AGENT:"); cbn;
    repeat split; intros; solve [reflexivity | discriminate].
Qed.

(** C6. The URL of the stream connection is the base followed by
    [/issue-logs/] and the client id, nothing after it. When the configured
    base starts with [/], the URL is scheme, [//], the page's host, the base
    and that suffix, where the scheme is [wss:] exactly when the page was
    loaded over [https:] and [ws:] otherwise; when it does not, the URL is
    the configured base and that suffix. *)
Theorem stream_url_addressed_by_client_id (p : Platform) (clientId : string) :
  (exists base, ApiService.wsUrl p clientId = base ++ "/issue-logs/" ++ clientId)
  /\ (if JsString.startsWith (ApiService.WS_BASE_URL p) "/"
      then exists scheme,
             ApiService.wsUrl p clientId
               = scheme ++ "//" ++ location_host p ++ ApiService.WS_BASE_URL p
                   ++ "/issue-logs/" ++ clientId
             /\ (scheme = "wss:" \/ scheme = "ws:")
             /\ (scheme = "wss:" <-> location_protocol p = "https:")
             /\ (JsString.startsWith (ApiService.wsUrl p clientId) "wss:" = true
                  <-> location_protocol p = "https:")
      else ApiService.wsUrl p clientId
             = ApiService.WS_BASE_URL p ++ "/issue-logs/" ++ clientId).
Proof.
  unfold ApiService.wsUrl.
  destruct (JsString.startsWith (ApiService.WS_BASE_URL p) "/").
  - split.
    + eexists. rewrite <- !append_assoc. reflexivity.
    + destruct (String.eqb_spec (location_protocol p) "https:") as [e|ne].
      * exists "wss:". repeat split; auto.
      * exists "ws:". repeat split; auto; try discriminate;
          intros; contradiction.
  - split; [eexists|]; reflexivity.
Qed.

(** ** Submitting an issue *)

Lemma processIssueWithAgent_requests (p : Platform)
    (backend : Request -> Outcome (Response ApiService.ProcessIssueResponse))
    (issue : Issue.t) :
  Net.requests (ApiService.processIssueWithAgent p backend issue)
  = [ApiService.processIssueRequest p issue].
Proof.
  unfold ApiService.processIssueWithAgent, Net.fetch, Net.bind, Net.tryCatch.
  destruct (backend _) as [response|e]; [|reflexivity].
  destruct (ok response); cbn; [destruct (json response)|]; reflexivity.
Qed.

(** What [processIssueWithAgent] settles with, read off the backend's
    answer. *)
Lemma processIssueWithAgent_settled (p : Platform)
    (backend : Request -> Outcome (Response ApiService.ProcessIssueResponse))
    (issue : Issue.t) :
  Net.settled (ApiService.processIssueWithAgent p backend issue)
  = match backend (ApiService.processIssueRequest p issue) with
    | Resolved response =>
        if ok response then json response
        else Rejected (ErrorObj (errorMessageOf response))
    | Rejected e => Rejected e
    end.
Proof.
  unfold ApiService.processIssueWithAgent, Net.fetch, Net.bind, Net.tryCatch.
  destruct (backend _) as [response|e]; [|reflexivity].
  destruct (ok response); cbn; [destruct (json response)|]; reflexivity.
Qed.

(** What [askBotToResolve] settles with, read off the submission. *)
Lemma askBotToResolve_settled (p : Platform)
    (backend : Request -> Outcome (Response ApiService.ProcessIssueResponse))
    (issue : Issue.t) :
  Net.settled (GithubService.askBotToResolve p backend issue)
  = match Net.settled (ApiService.processIssueWithAgent p backend issue) with
    | Resolved response =>
        Resolved
          {| GithubService.success := true;
             GithubService.message :=
               "Bot is analyzing issue #"
                 ++ JsString.ofNumber (Issue.number issue)
                 ++ ": " ++ Issue.title issue;
             GithubService.clientId := Some (ApiService.client_id response) |}
    | Rejected (ErrorObj m) =>
        Resolved
          {| GithubService.success := false;
             GithubService.message := m;
             GithubService.clientId := None |}
    | Rejected (NonError _) =>
        Resolved
          {| GithubService.success := false;
             GithubService.message :=
               "An unknown error occurred while processing the issue";
             GithubService.clientId := None |}
    end.
Proof.
  unfold GithubService.askBotToResolve, Net.bind, Net.tryCatch, Net.settled.
  destruct (ApiService.processIssueWithAgent p backend issue) as [sent [r|[m|v]]];
    reflexivity.
Qed.

(** Every settlement of the submission can occur: the backend decides it. *)
Lemma submission_settles_any_way (p : Platform) (issue : Issue.t)
    (o : Outcome ApiService.ProcessIssueResponse) :
  exists backend,
    Net.settled (ApiService.processIssueWithAgent p backend issue) = o.
Proof.
  destruct o as [r|e].
  - exists (fun _ => Resolved {| ok := true; status := 200; text := EmptyString;
                                 parsed := Rejected (ErrorObj EmptyString);
                                 json := Resolved r |}).
    now rewrite processIssueWithAgent_settled.
  - exists (fun _ => Rejected e).
    now rewrite processIssueWithAgent_settled.
Qed.

(** C7 (as amended). The one request of a submission carries the record
    built from the issue: title, description and url are the issue's title,
    body and html_url, unchanged; creator_name is the author's login when
    there is one and it is not empty, and [Unknown] when the login is absent
    or empty. *)
Theorem submission_record_carries_issue_fields (p : Platform)
    (backend : Request -> Outcome (Response ApiService.ProcessIssueResponse))
    (issue : Issue.t) :
  let d := ApiService.issueDetail issue in
  Net.requests (ApiService.processIssueWithAgent p backend issue)
    = [ApiService.processIssueRequest p issue]
  /\ req_body (ApiService.processIssueRequest p issue) = ProcessIssueBody d
  /\ IssueDetail.title d = Issue.title issue
  /\ IssueDetail.description d = Issue.body issue
  /\ IssueDetail.url d = Issue.html_url issue
  /\ IssueDetail.creator_name d
       = match Issue.userLogin issue with
         | None => "Unknown"
         | Some EmptyString => "Unknown"
         | Some name => name
         end.
Proof.
  cbn zeta. split; [apply processIssueWithAgent_requests|].
  repeat split.
  cbn [ApiService.issueDetail IssueDetail.creator_name].
  destruct (Issue.userLogin issue) as [[|c name]|]; reflexivity.
Qed.

(** C7, as first stated, fails for an issue whose author's login is present
    and empty: the record's creator_name is [Unknown], not the login. *)
Lemma creator_name_of_empty_login :
  Issue.userLogin Example.issueWithEmptyLogin = Some EmptyString
  /\ IssueDetail.creator_name (ApiService.issueDetail Example.issueWithEmptyLogin)
       = "Unknown"
  /\ Some (IssueDetail.creator_name
             (ApiService.issueDetail Example.issueWithEmptyLogin))
       <> Issue.userLogin Example.issueWithEmptyLogin.
Proof. repeat split. discriminate. Qed.

(** C3. A submission is answered with a message and a client id (the
    declared [ProcessIssueResponse]). When the backend accepts, that answer
    is what [processIssueWithAgent] resolves with and [askBotToResolve]
    reports success with the very same client id; when the submission fails
    (the request cannot be made, the status is not ok, or the body cannot
    be read) it reports failure and no client id. *)
Theorem submission_hands_back_client_id (p : Platform)
    (backend : Request -> Outcome (Response ApiService.ProcessIssueResponse))
    (issue : Issue.t) :
  let answer := Net.settled (GithubService.askBotToResolve p backend issue) in
  let failure :=
    exists why,
      answer = Resolved {| GithubService.success := false;
                           GithubService.message := why;
                           GithubService.clientId := None |} in
  match backend (ApiService.processIssueRequest p issue) with
  | Resolved response =>
      if ok response
      then match json response with
           | Resolved accepted =>
               Net.settled (ApiService.processIssueWithAgent p backend issue)
                 = Resolved accepted
               /\ exists note,
                    answer
                    = Resolved
                        {| GithubService.success := true;
                           GithubService.message := note;
                           GithubService.clientId :=
                             Some (ApiService.client_id accepted) |}
           | Rejected _ => failure
           end
      else failure
  | Rejected _ => failure
  end.
Proof.
  cbn zeta.
  rewrite askBotToResolve_settled, processIssueWithAgent_settled.
  destruct (backend _) as [response|[m|v]]; try (eexists; reflexivity).
  destruct (ok response); [|eexists; reflexivity].
  destruct (json response) as [accepted|[m|v]]; try (eexists; reflexivity).
  split; [reflexivity | eexists; reflexivity].
Qed.

(** C8. [askBotToResolve] always resolves. If the submission resolves, the
    result is success with the response's client id; if it rejects with an
    [Error], the result is failure with that error's message; if it rejects
    with anything else, the result is failure with the fixed text. *)
Theorem askBotToResolve_never_rejects (p : Platform)
    (backend : Request -> Outcome (Response ApiService.ProcessIssueResponse))
    (issue : Issue.t) :
  (exists result,
     Net.settled (GithubService.askBotToResolve p backend issue)
       = Resolved result)
  /\ Net.settled (GithubService.askBotToResolve p backend issue)
     = match Net.settled (ApiService.processIssueWithAgent p backend issue) with
       | Resolved response =>
           Resolved
             {| GithubService.success := true;
                GithubService.message :=
                  "Bot is analyzing issue #"
                    ++ JsString.ofNumber (Issue.number issue)
                    ++ ": " ++ Issue.title issue;
                GithubService.clientId :=
                  Some (ApiService.client_id response) |}
       | Rejected (ErrorObj m) =>
           Resolved
             {| GithubService.success := false;
                GithubService.message := m;
                GithubService.clientId := None |}
       | Rejected (NonError _) =>
           Resolved
             {| GithubService.success := false;
                GithubService.message :=
                  "An unknown error occurred while processing the issue";
                GithubService.clientId := None |}
       end.
Proof.
  split; [|apply askBotToResolve_settled].
  rewrite askBotToResolve_settled.
  destruct (Net.settled _) as [response|[m|v]]; eexists; reflexivity.
Qed.

(** ** Reading owner and repository off a URL *)

Lemma split_never_empty (sep : ascii) (s : string) : JsString.split sep s <> [].
Proof.
  destruct s as [|c s]; simpl; [discriminate|].
  destruct (Ascii.eqb c sep); [discriminate|].
  destruct (JsString.split sep s); discriminate.
Qed.

Lemma split_free (sep : ascii) (a : string) :
  JsString.free sep a = true -> JsString.split sep a = [a].
Proof.
  induction a as [|c a IH]; simpl; [reflexivity|].
  destruct (Ascii.eqb c sep); simpl; [discriminate|].
  intros H. now rewrite (IH H).
Qed.

Lemma split_at_sep (sep : ascii) (a b : string) :
  JsString.free sep a = true ->
  JsString.split sep (a ++ String sep b) = a :: JsString.split sep b.
Proof.
  induction a as [|c a IH]; simpl.
  - now rewrite Ascii.eqb_refl.
  - destruct (Ascii.eqb c sep); simpl; [discriminate|].
    intros H. now rewrite (IH H).
Qed.

(** The parts of a path written [/owner/repo] or [/owner/repo/more]. *)
Lemma pathParts_owner_repo (o r more : string) :
  JsString.free "/" o = true -> JsString.truthy o = true ->
  JsString.free "/" r = true -> JsString.truthy r = true ->
  GithubService.pathParts ("/" ++ o ++ "/" ++ r) = [o; r]
  /\ GithubService.pathParts ("/" ++ o ++ "/" ++ r ++ "/" ++ more)
     = o :: r :: GithubService.pathParts more.
Proof.
  intros fo to fr tr. unfold GithubService.pathParts.
  change ("/" ++ o ++ "/" ++ r) with (String "/" (o ++ String "/" r)).
  change ("/" ++ o ++ "/" ++ r ++ "/" ++ more)
    with (String "/" (o ++ String "/" (r ++ String "/" more))).
  cbn [JsString.split]. rewrite Ascii.eqb_refl.
  rewrite !(split_at_sep _ o) by assumption.
  rewrite (split_free _ r), (split_at_sep _ r) by assumption.
  cbn [filter JsString.truthy]. rewrite to, tr. split; reflexivity.
Qed.

Lemma substring_past_prefix (pre s : string) (m k : nat) :
  String.substring (String.length pre + m) k (pre ++ s) = String.substring m k s.
Proof. induction pre as [|c pre IH]; simpl; [reflexivity | exact IH]. Qed.

(** What a string includes, it still includes with something put before. *)
Lemma includes_after_prefix (pre s needle : string) :
  needle <> EmptyString ->
  JsString.includes s needle = true ->
  JsString.includes (pre ++ s) needle = true.
Proof.
  unfold JsString.includes. intros nonempty H.
  destruct (String.index 0 needle s) as [m|] eqn:found; [|discriminate].
  apply String.index_correct1 in found.
  destruct (String.index 0 needle (pre ++ s)) eqn:search; [reflexivity|].
  exfalso.
  apply (String.index_correct3 0 (String.length pre + m) _ _ search nonempty);
    [lia|].
  now rewrite substring_past_prefix.
Qed.

Lemma normalizedUrl_github (url : string) :
  JsString.includes url "github.com" = true ->
  GithubService.normalizedUrl url = url.
Proof. unfold GithubService.normalizedUrl. now intros ->. Qed.

Lemma formattedUrl_http (url : string) :
  JsString.startsWith url "http" = true ->
  GithubService.formattedUrl url = url.
Proof. unfold GithubService.formattedUrl. now intros ->. Qed.

(** [extractRepoInfo], read off the path of the URL it parses. *)
Lemma extractRepoInfo_by_parts (p : Platform) (url : string) :
  GithubService.extractRepoInfo p url
  = match URL_pathname p (GithubService.normalizedUrl url) with
    | Some pathname =>
        match GithubService.pathParts pathname with
        | o :: r :: _ =>
            Some {| GithubService.owner := o; GithubService.repo := r |}
        | _ => None
        end
    | None => None
    end.
Proof.
  unfold GithubService.extractRepoInfo.
  destruct (URL_pathname p _) as [pathname|]; [|reflexivity].
  destruct (GithubService.pathParts pathname) as [|o [|r rest]]; reflexivity.
Qed.

(** [fetchGitHubIssues] stops before any request when no repository can be
    read off its argument. *)
Lemma fetchGitHubIssues_invalid (p : Platform)
    (backend : Request -> Outcome (Response JsVal)) (repoUrl : string) :
  GithubService.extractRepoInfo p (GithubService.formattedUrl repoUrl) = None ->
  GithubService.fetchGitHubIssues p backend repoUrl
  = ([], Rejected GithubService.invalidUrl).
Proof. unfold GithubService.fetchGitHubIssues. now intros ->. Qed.

(** And it does send its one request when a repository can be read. *)
Lemma fetchGitHubIssues_requests (p : Platform)
    (backend : Request -> Outcome (Response JsVal))
    (repoUrl : string) (info : GithubService.RepoInfo) :
  GithubService.extractRepoInfo p (GithubService.formattedUrl repoUrl)
    = Some info ->
  Net.requests (GithubService.fetchGitHubIssues p backend repoUrl)
  = [GithubService.fetchIssuesRequest p info].
Proof.
  unfold GithubService.fetchGitHubIssues. intros ->.
  unfold Net.fetch, Net.bind, Net.tryCatch, Net.await, Net.throw.
  destruct (backend _) as [response|[m|v]]; try reflexivity.
  destruct (ok response); cbn; [|reflexivity].
  destruct (json response) as [data|[m|v]]; cbn; try reflexivity.
  destruct (GithubService.adaptResponse p data) as [issues|[m|v]]; reflexivity.
Qed.

(** C9 (as amended). For a URL that contains [github.com]:
    [extractRepoInfo] returns the first two segments of its path as owner
    and repo, whatever follows them, and nothing when the path has fewer
    than two segments or the URL does not parse; and [fetchGitHubIssues],
    which first puts [https://] before an argument not starting with
    [http], throws [Invalid GitHub repository URL format] without a single
    request when that URL's path has fewer than two segments or it does not
    parse, and otherwise sends its request for the repository read. *)
Theorem github_url_gives_owner_and_repo (p : Platform)
    (backend : Request -> Outcome (Response JsVal)) (url : string) :
  JsString.includes url "github.com" = true ->
  match URL_pathname p url with
  | Some pathname =>
      match GithubService.pathParts pathname with
      | o :: r :: _ =>
          GithubService.extractRepoInfo p url
          = Some {| GithubService.owner := o; GithubService.repo := r |}
      | _ => GithubService.extractRepoInfo p url = None
      end
  | None => GithubService.extractRepoInfo p url = None
  end
  /\ match URL_pathname p (GithubService.formattedUrl url) with
     | Some pathname =>
         match GithubService.pathParts pathname with
         | o :: r :: _ =>
             Net.requests (GithubService.fetchGitHubIssues p backend url)
             = [GithubService.fetchIssuesRequest p
                  {| GithubService.owner := o; GithubService.repo := r |}]
         | _ =>
             GithubService.fetchGitHubIssues p backend url
             = ([], Rejected GithubService.invalidUrl)
         end
     | None =>
         GithubService.fetchGitHubIssues p backend url
         = ([], Rejected GithubService.invalidUrl)
     end.
Proof.
  intros github. split.
  - rewrite extractRepoInfo_by_parts, (normalizedUrl_github url github).
    destruct (URL_pathname p url) as [pathname|]; [|reflexivity].
    destruct (GithubService.pathParts pathname) as [|o [|r rest]]; reflexivity.
  - assert (github' :
      JsString.includes (GithubService.formattedUrl url) "github.com" = true).
    { unfold GithubService.formattedUrl.
      destruct (negb (JsString.startsWith url "http")); [|exact github].
      now apply includes_after_prefix. }
    pose proof (extractRepoInfo_by_parts p (GithubService.formattedUrl url)) as E.
    rewrite (normalizedUrl_github _ github') in E.
    destruct (URL_pathname p (GithubService.formattedUrl url)) as [pathname|].
    + destruct (GithubService.pathParts pathname) as [|o [|r rest]].
      * now apply fetchGitHubIssues_invalid.
      * now apply fetchGitHubIssues_invalid.
      * now apply fetchGitHubIssues_requests.
    + now apply fetchGitHubIssues_invalid.
Qed.

(** ** Adapting the backend's issues *)

Lemma get_not_nullish (v : JsVal) (k : string) :
  Js.nullish v = false -> exists x, Js.get v k = Some x.
Proof. destruct v; simpl; try discriminate; intros _; eexists; reflexivity. Qed.

Lemma read_nullish (p : Platform) (v : JsVal) (k : string) :
  Js.nullish v = true ->
  GithubService.read p v k = Rejected (ErrorObj (nullReadMessage p k)).
Proof. destruct v; simpl; try discriminate; reflexivity. Qed.

(** The callback on an element that is neither [null] nor [undefined]. *)
Lemma adapt_not_nullish (p : Platform) (index : nat) (item : JsVal) :
  Js.nullish item = false ->
  exists t d u c,
    Js.get item "title" = Some t
    /\ Js.get item "description" = Some d
    /\ Js.get item "url" = Some u
    /\ Js.get item "creator_name" = Some c
    /\ GithubService.adapt p index item
       = Resolved
           {| GithubService.id := (Z.of_nat index + 1)%Z;
              GithubService.number := (Z.of_nat index + 1)%Z;
              GithubService.title := Js.or t (JStr "Untitled Issue");
              GithubService.body := Js.or d (JStr EmptyString);
              GithubService.html_url := u;
              GithubService.created_at := toISOString p (now p);
              GithubService.user :=
                {| GithubService.login := Js.or c (JStr "Unknown User");
                   GithubService.avatar_url := "https://github.githubassets.com/images/modules/logos_page/GitHub-Mark.png" |} |}.
Proof.
  intros H. unfold GithubService.adapt, GithubService.read.
  destruct (get_not_nullish item "title" H) as [t ->].
  destruct (get_not_nullish item "description" H) as [d ->].
  destruct (get_not_nullish item "url" H) as [u ->].
  destruct (get_not_nullish item "creator_name" H) as [c ->].
  exists t, d, u, c. repeat split.
Qed.

Lemma adapt_nullish (p : Platform) (index : nat) (item : JsVal) :
  Js.nullish item = true ->
  GithubService.adapt p index item
  = Rejected (ErrorObj (nullReadMessage p "title")).
Proof.
  intros H. unfold GithubService.adapt. now rewrite (read_nullish p item _ H).
Qed.

(** [map] over elements none of which is [null]: one result per element,
    the [i]-th made from the [i]-th element and its index. *)
Lemma mapFrom_adapt_resolves (p : Platform) (items : list JsVal) :
  forall start,
  forallb (fun item => negb (Js.nullish item)) items = true ->
  exists issues,
    GithubService.mapFrom (GithubService.adapt p) start items = Resolved issues
    /\ length issues = length items
    /\ forall i item,
         nth_error items i = Some item ->
         exists adapted,
           nth_error issues i = Some adapted
           /\ GithubService.adapt p (start + i) item = Resolved adapted.
Proof.
  induction items as [|item items IH]; intros start H; simpl in *.
  - exists []. repeat split. intros [|i] item E; discriminate E.
  - apply andb_true_iff in H as [Hitem Hrest].
    apply negb_true_iff in Hitem.
    destruct (adapt_not_nullish p start item Hitem)
      as (t & d & u & c & _ & _ & _ & _ & E).
    destruct (IH (S start) Hrest) as (issues & M & L & each).
    rewrite E, M. eexists. split; [reflexivity|]. split; [simpl; now rewrite L|].
    intros [|i] item' Ei; simpl in *.
    + injection Ei as <-. eexists. split; [reflexivity|].
      now rewrite Nat.add_0_r.
    + destruct (each i item' Ei) as (adapted & Ea & Eb).
      exists adapted. split; [exact Ea|].
      now rewrite <- Nat.add_succ_comm.
Qed.

(** [map] over elements one of which is [null] throws at the first such. *)
Lemma mapFrom_adapt_rejects (p : Platform) (items : list JsVal) :
  forall start,
  forallb (fun item => negb (Js.nullish item)) items = false ->
  GithubService.mapFrom (GithubService.adapt p) start items
  = Rejected (ErrorObj (nullReadMessage p "title")).
Proof.
  induction items as [|item items IH]; intros start H; simpl in *.
  - discriminate.
  - destruct (Js.nullish item) eqn:N; simpl in H.
    + now rewrite (adapt_nullish p start item N).
    + destruct (adapt_not_nullish p start item N)
        as (t & d & u & c & _ & _ & _ & _ & E).
      now rewrite E, (IH (S start) H).
Qed.

(** The transformation of lines 100 to 125, read off the parsed body. *)
Lemma adaptResponse_by_body (p : Platform) (data : JsVal) :
  GithubService.adaptResponse p data
  = match Js.get data "issues" with
    | Some (JArr items) => GithubService.mapFrom (GithubService.adapt p) 0 items
    | _ => Resolved []
    end.
Proof.
  unfold GithubService.adaptResponse, GithubService.issuesArray,
    GithubService.read.
  destruct data as [| |b|n|s|items|fields]; try reflexivity; cbn.
  - now destruct b.
  - now destruct (negb (n =? 0)%Z).
  - now destruct (JsString.truthy s).
  - destruct (Js.lookup "issues" fields) as [| |b|n|s|items|fs]; try reflexivity;
      cbn.
    + now destruct b.
    + now destruct (negb (n =? 0)%Z).
    + now destruct (JsString.truthy s).
Qed.

(** What [fetchGitHubIssues] settles with once the backend has answered
    with an ok status and a body that parses. *)
Lemma fetchGitHubIssues_settled (p : Platform)
    (backend : Request -> Outcome (Response JsVal)) (repoUrl : string)
    (info : GithubService.RepoInfo) (response : Response JsVal) (data : JsVal) :
  GithubService.extractRepoInfo p (GithubService.formattedUrl repoUrl)
    = Some info ->
  backend (GithubService.fetchIssuesRequest p info) = Resolved response ->
  ok response = true ->
  json response = Resolved data ->
  Net.settled (GithubService.fetchGitHubIssues p backend repoUrl)
  = match GithubService.adaptResponse p data with
    | Resolved issues => Resolved issues
    | Rejected (ErrorObj m) => Rejected (ErrorObj m)
    | Rejected (NonError _) =>
        Rejected (ErrorObj "An unknown error occurred while fetching issues from the backend.")
    end.
Proof.
  intros Einfo Ereply Eok Ejson.
  unfold GithubService.fetchGitHubIssues. rewrite Einfo.
  unfold Net.fetch, Net.bind, Net.tryCatch, Net.await, Net.throw.
  rewrite Ereply, Eok, Ejson. cbn.
  destruct (GithubService.adaptResponse p data) as [issues|[m|v]]; reflexivity.
Qed.

(** C10 (as amended). Once the backend has answered with an ok status and a
    JSON body: if the body holds an [issues] array none of whose elements is
    [null], [fetchGitHubIssues] returns one issue per element, the [i]-th
    with id and number [i + 1] whatever the backend sent, its title the
    element's title or [Untitled Issue] when that is absent or falsy, its
    body the element's description or the empty string likewise; if an
    element is [null] the call throws the engine's [TypeError]; and if the
    body holds no such array the call returns the empty list. *)
Theorem backend_issues_adapted_by_index (p : Platform)
    (backend : Request -> Outcome (Response JsVal)) (repoUrl : string)
    (info : GithubService.RepoInfo) (response : Response JsVal) (data : JsVal) :
  GithubService.extractRepoInfo p (GithubService.formattedUrl repoUrl)
    = Some info ->
  backend (GithubService.fetchIssuesRequest p info) = Resolved response ->
  ok response = true ->
  json response = Resolved data ->
  let result := Net.settled (GithubService.fetchGitHubIssues p backend repoUrl) in
  match Js.get data "issues" with
  | Some (JArr items) =>
      if forallb (fun item => negb (Js.nullish item)) items
      then exists issues,
             result = Resolved issues
             /\ length issues = length items
             /\ forall i item,
                  nth_error items i = Some item ->
                  exists adapted t d,
                    nth_error issues i = Some adapted
                    /\ Js.get item "title" = Some t
                    /\ Js.get item "description" = Some d
                    /\ GithubService.id adapted = (Z.of_nat i + 1)%Z
                    /\ GithubService.number adapted = (Z.of_nat i + 1)%Z
                    /\ GithubService.title adapted
                       = (if Js.truthy t then t else JStr "Untitled Issue")
                    /\ GithubService.body adapted
                       = (if Js.truthy d then d else JStr EmptyString)
      else result = Rejected (ErrorObj (nullReadMessage p "title"))
  | _ => result = Resolved []
  end.
Proof.
  intros Einfo Ereply Eok Ejson result. subst result.
  rewrite (fetchGitHubIssues_settled p backend repoUrl info response data)
    by assumption.
  rewrite adaptResponse_by_body.
  destruct (Js.get data "issues") as [[| |b|n|s|items|fields]|]; try reflexivity.
  destruct (forallb _ items) eqn:sound.
  - destruct (mapFrom_adapt_resolves p items 0 sound) as (issues & M & L & each).
    rewrite M. exists issues. split; [reflexivity|]. split; [exact L|].
    intros i item Ei.
    destruct (each i item Ei) as (adapted & Ea & Eb).
    assert (N : Js.nullish item = false).
    { apply nth_error_In in Ei.
      rewrite forallb_forall in sound. now apply negb_true_iff, sound. }
    destruct (adapt_not_nullish p (0 + i) item N)
      as (t & d & u & c & Et & Ed & _ & _ & E).
    rewrite E in Eb. injection Eb as <-.
    eexists; exists t, d.
    split; [exact Ea|]. split; [exact Et|]. split; [exact Ed|].
    repeat split.
  - now rewrite (mapFrom_adapt_rejects p items 0 sound).
Qed.

(** ** The session's event queue *)

Module BrokerFacts.
Import Broker.

Lemma append_total (s : Session) (c : string) (o : Origin) :
  exists s', append s c o = Ok s'.
Proof. unfold append. destruct (isClosed (state s)); eexists; reflexivity. Qed.

Lemma appendAll_total (calls : list (string * Origin)) :
  forall s, exists s', appendAll calls s = Ok s'.
Proof.
  induction calls as [|[c o] calls IH]; intros s; simpl.
  - now exists s.
  - destruct (append_total s c o) as [s' ->]. apply IH.
Qed.

Lemma append_closed (s : Session) (c : string) (o : Origin) :
  isClosed (state s) = true -> append s c o = Ok s.
Proof. unfold append. now intros ->. Qed.

Lemma append_open (s : Session) (c : string) (o : Origin) :
  isClosed (state s) = false -> append s c o = Ok (store s c o).
Proof. unfold append. now intros ->. Qed.

Lemma store_numbered (s : Session) (c : string) (o : Origin) :
  numbered s -> numbered (store s c o).
Proof.
  unfold numbered. cbn [store events]. intros H.
  rewrite map_app, length_app, H. cbn [map sequence length].
  now rewrite Nat.add_1_r, seq_S.
Qed.

(** The producer's calls on an open session are all stored, in order, after
    what the session held. *)
Lemma appendAll_open (calls : list (string * Origin)) :
  forall s s',
  isClosed (state s) = false ->
  appendAll calls s = Ok s' ->
  state s' = state s
  /\ (numbered s -> numbered s')
  /\ exists added,
       events s' = (events s ++ added)%list
       /\ map payload added = calls.
Proof.
  induction calls as [|[c o] calls IH]; intros s s' open E; simpl in E.
  - injection E as <-. repeat split; auto.
    exists []. now rewrite app_nil_r.
  - rewrite (append_open s c o open) in E.
    destruct (IH (store s c o) s' open E) as (St & Num & added & Ev & Pay).
    split; [exact St|]. split; [intros H; now apply Num, store_numbered|].
    eexists (_ :: added). split.
    + rewrite Ev. cbn [store events]. now rewrite <- app_assoc.
    + cbn [map payload content origin]. now rewrite Pay.
Qed.

Lemma next_yield (s : Session) (c : EventCursor) (e : LogEvent) :
  nth_error (events s) (position c) = Some e ->
  next s c = Yield e {| position := S (position c) |}.
Proof. unfold next. now intros ->. Qed.

Lemma firstn_step {A} (l : list A) (n : nat) (x : A) :
  nth_error l n = Some x -> firstn (S n) l = (firstn n l ++ [x])%list.
Proof.
  revert n; induction l as [|y l IH]; intros [|n] H; simpl in *;
    try discriminate.
  - now injection H as ->.
  - now rewrite (IH n H).
Qed.

Lemma skipn_step {A} (l : list A) (n : nat) (x : A) :
  nth_error l n = Some x -> skipn n l = x :: skipn (S n) l.
Proof.
  revert n; induction l as [|y l IH]; intros [|n] H; simpl in *;
    try discriminate.
  - now injection H as ->.
  - now rewrite (IH n H).
Qed.

(** One step of either party keeps the subscriber in step, keeps the
    numbering and the state, and stores exactly what was emitted. *)
Lemma step_keeps (st : Stream) (a : Action) :
  isClosed (state (session st)) = false ->
  inStep st -> numbered (session st) ->
  let st' := step st a in
  isClosed (state (session st')) = false
  /\ inStep st' /\ numbered (session st')
  /\ exists added,
       events (session st') = (events (session st) ++ added)%list
       /\ map payload added = emitted [a].
Proof.
  intros open [bound given] num. destruct a as [c o|]; cbn [step emitted].
  - rewrite (append_open _ c o open). cbn [session cursor delivered].
    split; [exact open|]. split; [|split; [now apply store_numbered|]].
    + unfold inStep. cbn [session cursor delivered store events].
      rewrite length_app. split; [lia|].
      now rewrite firstn_app, (proj2 (Nat.sub_0_le _ _) bound), app_nil_r.
    + eexists [_]. split; reflexivity.
  - unfold next.
    destruct (nth_error (events (session st)) (position (cursor st)))
      as [e|] eqn:E.
    + cbn [session cursor delivered].
      split; [exact open|]. split; [|split; [exact num|]].
      * unfold inStep. cbn [session cursor delivered position]. split.
        -- apply Nat.le_succ_l, nth_error_Some. now rewrite E.
        -- now rewrite (firstn_step _ _ _ E), given.
      * exists []. now rewrite app_nil_r.
    + rewrite open. repeat split; auto.
      exists []. now rewrite app_nil_r.
Qed.

Lemma emitted_app (xs ys : list Action) :
  emitted (xs ++ ys) = (emitted xs ++ emitted ys)%list.
Proof.
  induction xs as [|[c o|] xs IH]; simpl; [reflexivity | | exact IH].
  now rewrite IH.
Qed.

Lemma run_keeps (schedule : list Action) :
  forall st,
  isClosed (state (session st)) = false ->
  inStep st -> numbered (session st) ->
  let st' := run schedule st in
  isClosed (state (session st')) = false
  /\ inStep st' /\ numbered (session st')
  /\ exists added,
       events (session st') = (events (session st) ++ added)%list
       /\ map payload added = emitted schedule.
Proof.
  induction schedule as [|a schedule IH]; intros st open given num;
    cbn [run fold_left].
  - repeat split; try assumption; try apply given.
    exists []. now rewrite app_nil_r.
  - destruct (step_keeps st a open given num)
      as (open1 & given1 & num1 & added1 & Ev1 & Pay1).
    destruct (IH (step st a) open1 given1 num1)
      as (open2 & given2 & num2 & added2 & Ev2 & Pay2).
    split; [exact open2|]. split; [exact given2|]. split; [exact num2|].
    exists (added1 ++ added2)%list. split.
    + unfold run in Ev2. rewrite Ev2, Ev1. now rewrite app_assoc.
    + rewrite map_app, Pay1, Pay2.
      change (a :: schedule) with ([a] ++ schedule)%list.
      now rewrite emitted_app.
Qed.

(** With fuel for every event not yet yielded and one pull more, the cursor
    yields all of them and then suspends, or ends if the session is
    [Closed]. *)
Lemma pull_drains (fuel : nat) :
  forall s c,
  position c <= length (events s) ->
  length (events s) - position c < fuel ->
  pull fuel s c
  = (skipn (position c) (events s),
     {| position := length (events s) |},
     isClosed (state s)).
Proof.
  induction fuel as [|fuel IH]; intros s c bound enough; [lia|].
  cbn [pull]. unfold next.
  destruct (nth_error (events s) (position c)) as [e|] eqn:E.
  - assert (position c < length (events s))
      by (apply nth_error_Some; now rewrite E).
    rewrite (IH s {| position := S (position c) |}) by (cbn; lia).
    cbn [position]. now rewrite (skipn_step _ _ _ E).
  - apply nth_error_None in E.
    assert (position c = length (events s)) as same by lia.
    rewrite skipn_all2 by lia.
    destruct c as [n]; cbn in same; subst n.
    now destruct (isClosed (state s)).
Qed.

Lemma seenBy_all (st : Stream) :
  inStep st -> seenBy st = events (session st).
Proof.
  intros [bound given]. unfold seenBy.
  rewrite pull_drains by (try assumption; lia).
  cbn [fst]. rewrite given. apply firstn_skipn.
Qed.

Lemma numbered_nth (s : Session) (i : nat) (e : LogEvent) :
  numbered s -> nth_error (events s) i = Some e -> sequence e = i.
Proof.
  unfold numbered. intros num E.
  pose proof (map_nth_error sequence _ _ E) as M. rewrite num in M.
  assert (i < length (events s)) by (apply nth_error_Some; now rewrite E).
  rewrite nth_error_nth' with (d := 0) in M by (now rewrite length_seq).
  rewrite seq_nth in M by assumption. now injection M.
Qed.

End BrokerFacts.

(** C1. On a session that starts empty and is not closed, let a producer
    append a history, let a subscriber attach afterwards, and let the two
    then take any steps in any order. By the time the cursor next suspends
    the subscriber has received exactly the appended events, in the order
    appended; the [i]-th of them carries sequence number [i], so the
    numbers never decrease, skip or repeat; the whole buffered history
    comes first and the live events after it; and at every moment what has
    been delivered is an initial part of that sequence. *)
Theorem subscriber_receives_events_in_sequence
    (s0 s1 : Broker.Session) (history : list (string * Broker.Origin))
    (schedule : list Broker.Action) :
  Broker.isClosed (Broker.state s0) = false ->
  Broker.events s0 = [] ->
  Broker.appendAll history s0 = Broker.Ok s1 ->
  let st := Broker.run schedule (Broker.attach s1) in
  let seen := Broker.seenBy st in
  map Broker.payload seen = (history ++ Broker.emitted schedule)%list
  /\ map Broker.sequence seen
     = seq 0 (length history + length (Broker.emitted schedule))
  /\ (forall i e, nth_error seen i = Some e -> Broker.sequence e = i)
  /\ NoDup seen
  /\ (exists live,
        seen = (Broker.events s1 ++ live)%list
        /\ map Broker.payload (Broker.events s1) = history
        /\ map Broker.payload live = Broker.emitted schedule)
  /\ Broker.delivered st = firstn (length (Broker.delivered st)) seen.
Proof.
  intros open empty E st seen.
  destruct (BrokerFacts.appendAll_open history s0 s1 open E)
    as (St & Num & added & Ev & Pay).
  rewrite empty in Ev. cbn [app] in Ev.
  assert (num1 : Broker.numbered s1)
    by (apply Num; unfold Broker.numbered; now rewrite empty).
  assert (open1 : Broker.isClosed (Broker.state (Broker.session (Broker.attach s1))) = false)
    by (cbn; now rewrite St).
  assert (given1 : Broker.inStep (Broker.attach s1))
    by (split; cbn; [lia | reflexivity]).
  destruct (BrokerFacts.run_keeps schedule (Broker.attach s1) open1 given1 num1)
    as (open2 & given2 & num2 & live & Ev2 & Pay2).
  fold st in open2, given2, num2, Ev2.
  assert (all : seen = Broker.events (Broker.session st))
    by (apply BrokerFacts.seenBy_all, given2).
  cbn [Broker.attach Broker.session] in Ev2.
  assert (pay : map Broker.payload seen
                = (history ++ Broker.emitted schedule)%list).
  { rewrite all, Ev2, map_app, Pay2, Ev. now rewrite Pay. }
  assert (len : length seen
                = length history + length (Broker.emitted schedule)).
  { rewrite <- (length_map Broker.payload seen), pay. apply length_app. }
  assert (nums : map Broker.sequence seen = seq 0 (length seen)).
  { rewrite all. exact num2. }
  split; [exact pay|]. split; [now rewrite nums, len|].
  split; [intros i e Ei; rewrite all in Ei;
          now apply (BrokerFacts.numbered_nth _ _ _ num2)|].
  split.
  { apply (NoDup_map_inv Broker.sequence). rewrite nums. apply seq_NoDup. }
  split.
  { exists live. rewrite all. split; [exact Ev2|].
    split; [now rewrite Ev | exact Pay2]. }
  destruct given2 as [bound given]. rewrite all, given at 1.
  now rewrite given, length_firstn, Nat.min_l.
Qed.

(** C4. Once a session has been moved to [Closed], whatever it held stays
    as it was: every [append] answers without an error and returns the
    session unchanged, so does any sequence of them, and no interleaving of
    appends and pulls changes the session; the events, and their count, are
    those held at closing. *)
Theorem closed_session_ignores_append
    (s : Broker.Session) (calls : list (string * Broker.Origin))
    (schedule : list Broker.Action) (c : Broker.EventCursor)
    (seen : list Broker.LogEvent) :
  let closed := Broker.transition s Broker.Closed in
  Broker.state closed = Broker.Closed
  /\ Broker.events closed = Broker.events s
  /\ (forall text o, Broker.append closed text o = Broker.Ok closed)
  /\ Broker.appendAll calls closed = Broker.Ok closed
  /\ Broker.session
       (Broker.run schedule
          {| Broker.session := closed; Broker.cursor := c;
             Broker.delivered := seen |})
     = closed
  /\ length (Broker.events closed) = length (Broker.events s).
Proof.
  intros closed.
  assert (St : Broker.state closed = Broker.Closed).
  { unfold closed, Broker.transition. now destruct (Broker.state s) eqn:E. }
  assert (Ev : Broker.events closed = Broker.events s).
  { unfold closed, Broker.transition.
    now destruct (Nat.ltb _ _). }
  assert (shut : Broker.isClosed (Broker.state closed) = true)
    by now rewrite St.
  assert (one : forall text o, Broker.append closed text o = Broker.Ok closed)
    by (intros; now apply BrokerFacts.append_closed).
  assert (many : Broker.appendAll calls closed = Broker.Ok closed).
  { induction calls as [|[text o] calls IH]; simpl; [reflexivity|].
    now rewrite one. }
  split; [exact St|]. split; [exact Ev|]. split; [exact one|].
  split; [exact many|]. split.
  - generalize c seen. clear c seen.
    induction schedule as [|a schedule IH]; intros c seen; [reflexivity|].
    cbn [Broker.run fold_left]. destruct a as [text o|]; cbn [Broker.step].
    + cbn [Broker.session]. rewrite one. apply IH.
    + cbn [Broker.session Broker.cursor].
      destruct (Broker.next closed c); apply IH.
  - now rewrite Ev.
Qed.

(** C5. When the session has reached [Closed], the gateway's loop sends
    what the cursor still yields and then closes the connection with the
    normal reason, which is close code 1000 on the wire; on that code the
    client adds nothing. For any close code, the client hands the consumer
    its one connection-closed message exactly when the code is not 1000. *)
Theorem closed_session_ends_stream_normally
    (p : Platform) (refusal : Broker.BrokerError -> Z)
    (s : Broker.Session) (c : Broker.EventCursor) (code : Z) :
  Broker.position c <= length (Broker.events s) ->
  let closed := Broker.transition s Broker.Closed in
  Broker.forward (S (length (Broker.events closed))) closed c
  = ((map (fun e => Broker.SendText (Broker.frame e))
        (skipn (Broker.position c) (Broker.events closed))
      ++ [Broker.CloseConnection Broker.NormalClosure])%list,
     {| Broker.position := length (Broker.events closed) |})
  /\ Broker.closeCode refusal Broker.NormalClosure = 1000%Z
  /\ ApiService.onclose p (Broker.closeCode refusal Broker.NormalClosure) = []
  /\ ApiService.onclose p code
     = (if (code =? 1000)%Z
        then []
        else [ {| ApiService.content :=
                    "Connection to agent closed. The analysis may be complete.";
                  ApiService.timestamp := now p;
                  ApiService.isAgent := true |} ])
  /\ (ApiService.onclose p code <> [] <-> code <> 1000%Z).
Proof.
  intros bound closed.
  assert (St : Broker.state closed = Broker.Closed).
  { unfold closed, Broker.transition. now destruct (Broker.state s) eqn:E. }
  assert (Ev : Broker.events closed = Broker.events s).
  { unfold closed, Broker.transition. now destruct (Nat.ltb _ _). }
  split.
  { unfold Broker.forward.
    rewrite BrokerFacts.pull_drains by (rewrite Ev; lia).
    now rewrite St. }
  split; [reflexivity|]. split; [reflexivity|].
  unfold ApiService.onclose.
  destruct (Z.eqb_spec code 1000) as [e|ne]; cbn [negb].
  - split; [reflexivity|]. split; intros H; [now elim H | contradiction].
  - split; [reflexivity|]. split; intros H; [exact ne | discriminate].
Qed.

(** ** The properties at work on the examples *)

(** C1 on the scenario of the design document: one event buffered before
    the subscriber attaches, two emitted while it polls. *)
Lemma subscriber_receives_events_in_sequence_witness :
  Broker.isClosed (Broker.state Example.started) = false
  /\ Broker.events Example.started = []
  /\ Broker.appendAll Example.history Example.started
     = Broker.Ok Example.buffered
  /\ map Broker.payload
       (Broker.seenBy
          (Broker.run Example.schedule (Broker.attach Example.buffered)))
     = [("starting analysis", Broker.System);
        ("found root cause", Broker.Agent);
        ("done", Broker.Agent)]
  /\ map Broker.sequence
       (Broker.seenBy
          (Broker.run Example.schedule (Broker.attach Example.buffered)))
     = [0; 1; 2].
Proof.
  split; [reflexivity|]. split; [reflexivity|]. split; [reflexivity|].
  destruct
    (subscriber_receives_events_in_sequence
       Example.started Example.buffered Example.history Example.schedule
       eq_refl eq_refl eq_refl) as (pay & nums & _).
  split; [exact pay | exact nums].
Defined.

(** C5 on the session holding its one buffered event: a subscriber that has
    had that event is sent the normal closure and nothing else; a client
    told code 1006 adds its message, a client told 1000 does not. *)
Lemma closed_session_ends_stream_normally_witness :
  1 <= length (Broker.events Example.buffered)
  /\ fst (Broker.forward 2
            (Broker.transition Example.buffered Broker.Closed)
            {| Broker.position := 1 |})
     = [Broker.CloseConnection Broker.NormalClosure]
  /\ ApiService.onclose Example.platform 1000 = []
  /\ (ApiService.onclose Example.platform 1006 <> [] <-> 1006%Z <> 1000%Z).
Proof.
  split; [apply le_n|].
  destruct
    (closed_session_ends_stream_normally Example.platform (fun _ => 1008%Z)
       Example.buffered {| Broker.position := 1 |} 1006 (le_n 1))
    as (sent & _ & quiet & _ & loud).
  split; [exact (f_equal fst sent)|]. split; [exact quiet | exact loud].
Defined.

(** C9 on a repository URL followed by [/issues], and on one that names
    only an owner. *)
Lemma github_url_gives_owner_and_repo_witness :
  JsString.includes "https://github.com/facebook/react/issues" "github.com"
    = true
  /\ GithubService.extractRepoInfo Example.platform
       "https://github.com/facebook/react/issues"
     = Some {| GithubService.owner := "facebook";
               GithubService.repo := "react" |}
  /\ JsString.includes "https://github.com/facebook" "github.com" = true
  /\ GithubService.fetchGitHubIssues Example.platform Example.unreachable
       "https://github.com/facebook"
     = ([], Rejected GithubService.invalidUrl).
Proof.
  split; [reflexivity|].
  split;
    [exact (proj1 (github_url_gives_owner_and_repo Example.platform
                     Example.unreachable
                     "https://github.com/facebook/react/issues" eq_refl))|].
  split; [reflexivity|].
  exact (proj2 (github_url_gives_owner_and_repo Example.platform
                  Example.unreachable "https://github.com/facebook" eq_refl)).
Defined.

(** C9, as first stated, fails for a URL that does not contain
    [github.com]: [https://example.com/] has no path segment at all, yet
    [fetchGitHubIssues] does not throw the format error; it reads owner
    [https:] and repo [example.com] off the URL it made of it and sends its
    request. *)
Lemma url_without_segments_reaches_backend :
  URL_pathname Example.platform "https://example.com/" = Some "/"
  /\ GithubService.pathParts "/" = []
  /\ GithubService.fetchGitHubIssues Example.platform Example.unreachable
       "https://example.com/"
     = ([GithubService.fetchIssuesRequest Example.platform
           {| GithubService.owner := "https:";
              GithubService.repo := "example.com" |}],
        Rejected (ErrorObj "Failed to fetch"))
  /\ GithubService.fetchGitHubIssues Example.platform Example.unreachable
       "https://example.com/"
     <> ([], Rejected GithubService.invalidUrl).
Proof. repeat split. discriminate. Qed.

(** C10 on a body with one issue that has a title and no description. *)
Lemma backend_issues_adapted_by_index_witness :
  GithubService.extractRepoInfo Example.platform
    (GithubService.formattedUrl "github.com/facebook/react/issues")
  = Some {| GithubService.owner := "facebook"; GithubService.repo := "react" |}
  /\ (exists response,
        Example.answering Example.oneIssue
          (GithubService.fetchIssuesRequest Example.platform
             {| GithubService.owner := "facebook";
                GithubService.repo := "react" |})
        = Resolved response
        /\ ok response = true
        /\ json response = Resolved Example.oneIssue)
  /\ exists issues,
       Net.settled
         (GithubService.fetchGitHubIssues Example.platform
            (Example.answering Example.oneIssue)
            "github.com/facebook/react/issues")
       = Resolved issues
       /\ length issues = 1.
Proof.
  split; [reflexivity|].
  split; [eexists; repeat split|].
  destruct
    (backend_issues_adapted_by_index Example.platform
       (Example.answering Example.oneIssue)
       "github.com/facebook/react/issues" _ _ Example.oneIssue
       eq_refl eq_refl eq_refl eq_refl) as (issues & settled & len & _).
  exists issues. split; [exact settled | exact len].
Defined.

(** C10, as first stated, fails for a body whose [issues] array holds a
    [null]: the array has length 1, and the call throws instead of
    returning one issue. *)
Lemma null_issue_makes_fetch_throw :
  Js.get Example.nullIssue "issues" = Some (JArr [JNull])
  /\ Net.settled
       (GithubService.fetchGitHubIssues Example.platform
          (Example.answering Example.nullIssue)
          "github.com/facebook/react/issues")
     = Rejected (ErrorObj "Cannot read properties of null (reading 'title')")
  /\ forall issues,
       Net.settled
         (GithubService.fetchGitHubIssues Example.platform
            (Example.answering Example.nullIssue)
            "github.com/facebook/react/issues")
       <> Resolved issues.
Proof. repeat split. discriminate. Qed.


(** * Further properties of the client *)

(** ** How [fetchGitHubIssues] fails and what it sends *)

(** [fetchGitHubIssues] once a repository was read off its argument: its
    one request, and its settlement read off the backend's reply. *)
Lemma fetchGitHubIssues_by_reply (p : Platform)
    (backend : Request -> Outcome (Response JsVal)) (repoUrl : string)
    (info : GithubService.RepoInfo) :
  GithubService.extractRepoInfo p (GithubService.formattedUrl repoUrl)
    = Some info ->
  GithubService.fetchGitHubIssues p backend repoUrl
  = ([GithubService.fetchIssuesRequest p info],
     let unknown :=
       ErrorObj "An unknown error occurred while fetching issues from the backend." in
     let rethrown e :=
       match e with
       | ErrorObj m => Rejected (ErrorObj m)
       | NonError _ => Rejected unknown
       end in
     match backend (GithubService.fetchIssuesRequest p info) with
     | Resolved response =>
         if ok response
         then match json response with
              | Resolved data =>
                  match GithubService.adaptResponse p data with
                  | Resolved issues => Resolved issues
                  | Rejected e => rethrown e
                  end
              | Rejected e => rethrown e
              end
         else Rejected (ErrorObj (errorMessageOf response))
     | Rejected e => rethrown e
     end).
Proof.
  unfold GithubService.fetchGitHubIssues. intros ->.
  unfold Net.fetch, Net.bind, Net.tryCatch, Net.await, Net.throw.
  destruct (backend _) as [response|[m|v]]; try reflexivity.
  destruct (ok response); cbn; [|reflexivity].
  destruct (json response) as [data|[m|v]]; cbn; try reflexivity.
  destruct (GithubService.adaptResponse p data) as [issues|[m|v]]; reflexivity.
Qed.

(** X1. Whatever the backend does, [fetchGitHubIssues] either resolves or
    rejects with an [Error] instance, never with any other thrown value;
    a value that is not an [Error], thrown by [fetch] itself, is replaced
    by an [Error] with the fixed unknown-error message. *)
Theorem fetchGitHubIssues_rejects_with_errors_only (p : Platform)
    (backend : Request -> Outcome (Response JsVal)) (repoUrl : string) :
  ((exists issues,
      Net.settled (GithubService.fetchGitHubIssues p backend repoUrl)
      = Resolved issues)
   \/ (exists m,
         Net.settled (GithubService.fetchGitHubIssues p backend repoUrl)
         = Rejected (ErrorObj m)))
  /\ (forall info v,
        GithubService.extractRepoInfo p (GithubService.formattedUrl repoUrl)
          = Some info ->
        backend (GithubService.fetchIssuesRequest p info)
          = Rejected (NonError v) ->
        Net.settled (GithubService.fetchGitHubIssues p backend repoUrl)
        = Rejected (ErrorObj "An unknown error occurred while fetching issues from the backend.")).
Proof.
  split.
  - destruct (GithubService.extractRepoInfo p (GithubService.formattedUrl repoUrl))
      as [info|] eqn:E.
    + rewrite (fetchGitHubIssues_by_reply p backend repoUrl info E).
      cbn [Net.settled snd].
      destruct (backend _) as [response|[m|v]];
        try (right; eexists; reflexivity).
      destruct (ok response); [|right; eexists; reflexivity].
      destruct (json response) as [data|[m|v]];
        try (right; eexists; reflexivity).
      destruct (GithubService.adaptResponse p data) as [issues|[m|v]];
        [left | right | right]; eexists; reflexivity.
    + rewrite (fetchGitHubIssues_invalid p backend repoUrl E).
      right. eexists. reflexivity.
  - intros info v E R.
    rewrite (fetchGitHubIssues_by_reply p backend repoUrl info E).
    cbn [Net.settled snd]. now rewrite R.
Qed.

Lemma split_pieces_free (sep : ascii) (s : string) :
  Forall (fun piece => JsString.free sep piece = true) (JsString.split sep s).
Proof.
  induction s as [|c s IH]; simpl.
  - now repeat constructor.
  - destruct (Ascii.eqb c sep) eqn:E.
    + now constructor.
    + destruct (JsString.split sep s) as [|piece pieces].
      * repeat constructor. simpl. now rewrite E.
      * inversion IH as [|? ? Hpiece Hrest]; subst.
        constructor; [|exact Hrest]. simpl. now rewrite E, Hpiece.
Qed.

(** Every part of a path is non-empty and holds no slash. *)
Lemma pathParts_sound (pathname part : string) :
  In part (GithubService.pathParts pathname) ->
  JsString.truthy part = true /\ JsString.free "/" part = true.
Proof.
  unfold GithubService.pathParts. intros H.
  apply filter_In in H as [Hin Htruthy]. split; [exact Htruthy|].
  pose proof (split_pieces_free "/" pathname) as F.
  rewrite Forall_forall in F. now apply F.
Qed.

Lemma extractRepoInfo_sound (p : Platform) (url : string)
    (info : GithubService.RepoInfo) :
  GithubService.extractRepoInfo p url = Some info ->
  (JsString.truthy (GithubService.owner info) = true
   /\ JsString.free "/" (GithubService.owner info) = true)
  /\ (JsString.truthy (GithubService.repo info) = true
      /\ JsString.free "/" (GithubService.repo info) = true).
Proof.
  rewrite extractRepoInfo_by_parts.
  destruct (URL_pathname p _) as [pathname|]; [|discriminate].
  destruct (GithubService.pathParts pathname) as [|o [|r rest]] eqn:E;
    try discriminate.
  intros H. injection H as <-. cbn [GithubService.owner GithubService.repo].
  split; apply (pathParts_sound pathname); rewrite E; simpl; auto.
Qed.

(** X2. [fetchGitHubIssues] sends no request or exactly one; that one is a
    POST to the [fetch-issues] endpoint whose [repo_url] is
    [https://github.com/owner/repo] with owner and repo both non-empty and
    free of slashes, whatever else the argument held. *)
Theorem fetchGitHubIssues_sends_clean_repo_url (p : Platform)
    (backend : Request -> Outcome (Response JsVal)) (repoUrl : string) :
  Net.requests (GithubService.fetchGitHubIssues p backend repoUrl) = []
  \/ exists o r request,
       Net.requests (GithubService.fetchGitHubIssues p backend repoUrl)
       = [request]
       /\ req_method request = "POST"
       /\ req_url request
          = orElse (VITE_API_BASE_URL (env p)) "http://localhost:8000"
              ++ "/fetch-issues/"
       /\ req_body request
          = FetchIssuesBody ("https://github.com/" ++ o ++ "/" ++ r)
       /\ JsString.truthy o = true /\ JsString.free "/" o = true
       /\ JsString.truthy r = true /\ JsString.free "/" r = true.
Proof.
  destruct (GithubService.extractRepoInfo p (GithubService.formattedUrl repoUrl))
    as [info|] eqn:E.
  - right. exists (GithubService.owner info), (GithubService.repo info).
    eexists. rewrite (fetchGitHubIssues_requests p backend repoUrl info E).
    destruct (extractRepoInfo_sound p _ info E) as [[to fo] [tr fr]].
    repeat split; assumption.
  - left. now rewrite (fetchGitHubIssues_invalid p backend repoUrl E).
Qed.

(** ** The message of a backend failure *)

Lemma take_length (n : nat) (s : string) :
  String.length (JsString.take n s) = Nat.min n (String.length s).
Proof.
  revert s; induction n as [|n IH]; intros [|c s]; simpl; try reflexivity.
  now rewrite IH.
Qed.

Lemma take_prefix (n : nat) (s : string) :
  exists rest, s = JsString.take n s ++ rest.
Proof.
  revert s; induction n as [|n IH]; intros s.
  - exists s. now destruct s.
  - destruct s as [|c s]; [now exists EmptyString|].
    destruct (IH s) as [rest E]. exists rest. simpl. now rewrite <- E.
Qed.

(** X3. The message of the [Error] thrown for a response that is not ok:
    the body's [detail] when the body is a JSON object with a non-empty
    string there; [API error:] and the status when the object has no
    [detail] or a falsy one; and when the body is not JSON, or is the JSON
    [null], [Backend API error:], the status and the first 100 code units
    of the body, fewer when it is shorter. *)
Theorem errorMessageOf_reads_detail {T : Type} (response : Response T) :
  (forall fields c d,
     parsed response = Resolved (JObj fields) ->
     Js.lookup "detail" fields = JStr (String c d) ->
     errorMessageOf response = String c d)
  /\ (forall fields,
        parsed response = Resolved (JObj fields) ->
        Js.truthy (Js.lookup "detail" fields) = false ->
        errorMessageOf response
        = "API error: " ++ JsString.ofNumber (status response))
  /\ ((exists e, parsed response = Rejected e)
      \/ parsed response = Resolved JNull ->
      exists excerpt rest,
        errorMessageOf response
        = "Backend API error: " ++ JsString.ofNumber (status response)
            ++ " - " ++ excerpt
        /\ text response = excerpt ++ rest
        /\ String.length excerpt
           = Nat.min 100 (String.length (text response))).
Proof.
  unfold errorMessageOf. repeat split.
  - intros fields c d -> E. cbn [Js.get]. now rewrite E.
  - intros fields -> E. cbn [Js.get]. unfold Js.or. now rewrite E.
  - intros H. destruct (take_prefix 100 (text response)) as [rest E].
    exists (JsString.take 100 (text response)), rest.
    split; [|split; [exact E | apply take_length]].
    destruct H as [[e ->] | ->]; reflexivity.
Qed.

(** ** The issues handed to the page *)

Lemma or_truthy (v fallback : JsVal) :
  Js.truthy fallback = true -> Js.truthy (Js.or v fallback) = true.
Proof. unfold Js.or. intros H. now destruct (Js.truthy v) eqn:E. Qed.

Lemma or_not_nullish (v fallback : JsVal) :
  Js.nullish fallback = false -> Js.nullish (Js.or v fallback) = false.
Proof.
  unfold Js.or. intros H. destruct (Js.truthy v) eqn:E; [|exact H].
  now destruct v.
Qed.

(** What the callback's result looks like whenever it returns one. *)
Lemma adapt_resolved (p : Platform) (index : nat) (item : JsVal)
    (a : GithubService.AdaptedIssue) :
  GithubService.adapt p index item = Resolved a ->
  GithubService.id a = (Z.of_nat index + 1)%Z
  /\ GithubService.number a = (Z.of_nat index + 1)%Z
  /\ Js.truthy (GithubService.title a) = true
  /\ Js.nullish (GithubService.body a) = false
  /\ Js.truthy (GithubService.login (GithubService.user a)) = true
  /\ GithubService.created_at a = toISOString p (now p).
Proof.
  unfold GithubService.adapt.
  destruct (GithubService.read p item "title") as [t|]; [|discriminate].
  destruct (GithubService.read p item "description") as [d|]; [|discriminate].
  destruct (GithubService.read p item "url") as [u|]; [|discriminate].
  destruct (GithubService.read p item "creator_name") as [c|]; [|discriminate].
  intros H. injection H as <-.
  cbn [GithubService.id GithubService.number GithubService.title
       GithubService.body GithubService.login GithubService.user
       GithubService.created_at].
  repeat split; try (now apply or_truthy); now apply or_not_nullish.
Qed.

Lemma mapFrom_resolved {B} (f : nat -> JsVal -> Outcome B) (items : list JsVal) :
  forall start bs,
  GithubService.mapFrom f start items = Resolved bs ->
  length bs = length items
  /\ forall i b,
       nth_error bs i = Some b ->
       exists item, nth_error items i = Some item
                    /\ f (start + i) item = Resolved b.
Proof.
  induction items as [|item items IH]; intros start bs H; simpl in H.
  - injection H as <-. split; [reflexivity|]. intros [|i] b E; discriminate E.
  - destruct (f start item) as [b0|] eqn:E0; [|discriminate].
    destruct (GithubService.mapFrom f (S start) items) as [bs0|] eqn:E1;
      [|discriminate].
    injection H as <-. destruct (IH (S start) bs0 E1) as [L each].
    split; [simpl; now rewrite L|].
    intros [|i] b E; simpl in E.
    + injection E as <-. exists item. now rewrite Nat.add_0_r.
    + destruct (each i b E) as (it & Ei & Ef). exists it.
      split; [exact Ei|]. now rewrite <- Nat.add_succ_comm.
Qed.

(** Issues that [fetchGitHubIssues] resolves with were adapted from some
    parsed body. *)
Lemma fetchGitHubIssues_resolved (p : Platform)
    (backend : Request -> Outcome (Response JsVal)) (repoUrl : string)
    (issues : list GithubService.AdaptedIssue) :
  Net.settled (GithubService.fetchGitHubIssues p backend repoUrl)
    = Resolved issues ->
  exists data, GithubService.adaptResponse p data = Resolved issues.
Proof.
  destruct (GithubService.extractRepoInfo p (GithubService.formattedUrl repoUrl))
    as [info|] eqn:E.
  - rewrite (fetchGitHubIssues_by_reply p backend repoUrl info E).
    cbn [Net.settled snd].
    destruct (backend _) as [response|[m|v]]; try discriminate.
    destruct (ok response); [|discriminate].
    destruct (json response) as [data|[m|v]]; try discriminate.
    destruct (GithubService.adaptResponse p data) as [found|[m|v]] eqn:A;
      try discriminate.
    intros H. injection H as <-. now exists data.
  - rewrite (fetchGitHubIssues_invalid p backend repoUrl E). discriminate.
Qed.


(** ** Paths, as written *)

(** X5. When the path of the URL that [extractRepoInfo] parses is written
    [/owner/repo], or [/owner/repo/] followed by anything (such as
    [issues], or nothing at all), with owner and repo non-empty and free of
    slashes, the result is that owner and that repo: what follows the
    repository changes nothing. *)
Theorem extractRepoInfo_ignores_what_follows (p : Platform)
    (url o r more : string) :
  JsString.truthy o = true -> JsString.free "/" o = true ->
  JsString.truthy r = true -> JsString.free "/" r = true ->
  URL_pathname p (GithubService.normalizedUrl url) = Some ("/" ++ o ++ "/" ++ r)
  \/ URL_pathname p (GithubService.normalizedUrl url)
     = Some ("/" ++ o ++ "/" ++ r ++ "/" ++ more) ->
  GithubService.extractRepoInfo p url
  = Some {| GithubService.owner := o; GithubService.repo := r |}.
Proof.
  intros to fo tr fr H.
  destruct (pathParts_owner_repo o r more fo to fr tr) as [short long].
  rewrite extractRepoInfo_by_parts.
  destruct H as [-> | ->]; [now rewrite short | now rewrite long].
Qed.

Lemma pathParts_after_protocol (rest : string) :
  GithubService.pathParts ("/https://" ++ rest)
  = "https:" :: GithubService.pathParts rest.
Proof.
  unfold GithubService.pathParts.
  change ("/https://" ++ rest)
    with (String "/" ("https:" ++ String "/" (String "/" rest))).
  cbn [JsString.split]. rewrite Ascii.eqb_refl.
  rewrite (split_at_sep "/" "https:") by reflexivity.
  cbn [JsString.split]. rewrite Ascii.eqb_refl. reflexivity.
Qed.

(** X6. An argument of [fetchGitHubIssues] that neither starts with [http]
    nor, once [https://] is put before it, contains [github.com] (such as
    the shorthand [owner/repo]) is not read as owner and repo: the URL
    parsed is [https://github.com/https://] followed by the argument, and
    when the parser gives its path as written, the request goes out for
    owner [https:] and, as repo, the argument's first path segment. *)
Theorem shorthand_is_read_as_https_owner (p : Platform)
    (backend : Request -> Outcome (Response JsVal))
    (repoUrl first : string) (others : list string) :
  JsString.startsWith repoUrl "http" = false ->
  JsString.includes ("https://" ++ repoUrl) "github.com" = false ->
  URL_pathname p ("https://github.com/https://" ++ repoUrl)
    = Some ("/https://" ++ repoUrl) ->
  GithubService.pathParts repoUrl = first :: others ->
  Net.requests (GithubService.fetchGitHubIssues p backend repoUrl)
  = [GithubService.fetchIssuesRequest p
       {| GithubService.owner := "https:"; GithubService.repo := first |}].
Proof.
  intros bare foreign parsed parts.
  apply fetchGitHubIssues_requests.
  rewrite extractRepoInfo_by_parts.
  unfold GithubService.formattedUrl, GithubService.normalizedUrl.
  rewrite bare. cbn [negb]. rewrite foreign.
  change ("https://github.com/" ++ "https://" ++ repoUrl)
    with ("https://github.com/https://" ++ repoUrl).
  now rewrite parsed, pathParts_after_protocol, parts.
Qed.

(** ** The search field *)

Lemma trimEnd_truthy (s : string) (n : nat) (c : ascii) :
  String.get n s = Some c -> JsString.isWhitespace c = false ->
  JsString.truthy (JsString.trimEnd s) = true.
Proof.
  revert n; induction s as [|d s IH]; intros n H W; [discriminate H|].
  cbn [JsString.trimEnd].
  destruct (JsString.trimEnd s) as [|e rest] eqn:E; [|reflexivity].
  destruct n as [|n]; simpl in H.
  - injection H as ->. now rewrite W.
  - specialize (IH n H W). discriminate IH.
Qed.

Lemma trimStart_keeps (s : string) (n : nat) (c : ascii) :
  String.get n s = Some c -> JsString.isWhitespace c = false ->
  exists n', String.get n' (JsString.trimStart s) = Some c.
Proof.
  revert n; induction s as [|d s IH]; intros n H W; [discriminate H|].
  cbn [JsString.trimStart].
  destruct (JsString.isWhitespace d) eqn:D; [|now exists n].
  destruct n as [|n]; simpl in H.
  - injection H as ->. congruence.
  - now apply (IH n).
Qed.

(** A string holding a code unit that is not white space does not trim to
    the empty string. *)
Lemma trim_truthy (s : string) (n : nat) (c : ascii) :
  String.get n s = Some c -> JsString.isWhitespace c = false ->
  JsString.truthy (JsString.trim s) = true.
Proof.
  intros H W. destruct (trimStart_keeps s n c H W) as [n' H'].
  now apply (trimEnd_truthy _ n' c).
Qed.

Lemma includes_found (s needle : string) :
  JsString.includes s needle = true ->
  exists m, String.substring m (String.length needle) s = needle.
Proof.
  unfold JsString.includes.
  destruct (String.index 0 needle s) as [m|] eqn:E; [|discriminate].
  intros _. exists m. exact (String.index_correct1 0 m _ _ E).
Qed.

Lemma found_includes (s needle : string) (m : nat) :
  needle <> EmptyString ->
  String.substring m (String.length needle) s = needle ->
  JsString.includes s needle = true.
Proof.
  unfold JsString.includes. intros nonempty H.
  destruct (String.index 0 needle s) eqn:E; [reflexivity|].
  exfalso. apply (String.index_correct3 0 m _ _ E nonempty); [lia | exact H].
Qed.

Lemma take_substring (s : string) :
  forall n a b,
  JsString.take a (String.substring n (a + b) s) = String.substring n a s.
Proof.
  induction s as [|c s IH]; intros [|n] [|a] b; simpl; try reflexivity.
  - now rewrite (IH 0 a b).
  - exact (IH n 0 b).
  - exact (IH n (S a) b).
Qed.

Lemma includes_github_slash (s : string) :
  JsString.includes s "github.com/" = true ->
  JsString.includes s "github.com" = true
  /\ JsString.truthy (JsString.trim s) = true.
Proof.
  intros H. destruct (includes_found _ _ H) as [m E]. split.
  - apply (found_includes s "github.com" m); [discriminate|].
    change (String.length "github.com") with 10.
    rewrite <- (take_substring s m 10 1).
    change (10 + 1) with (String.length "github.com/"). now rewrite E.
  - apply (trim_truthy s m "g"); [|reflexivity].
    assert (G : String.get 0 (String.substring m 11 s) = String.get (0 + m) s)
      by (apply String.substring_correct1; lia).
    change 11 with (String.length "github.com/") in G.
    rewrite E in G. symmetry. exact G.
Qed.

(** X7. Submitting the search field calls [onSearch], with the text
    exactly as typed, when and only when the text contains [github.com/];
    such a text is the one [extractRepoInfo] goes on to parse, with
    [https://] before it if it does not start with [http]. In every other
    case exactly one error toast is shown and no search is made. *)
Theorem search_bar_passes_github_urls_only (repoUrl : string) :
  if JsString.includes repoUrl "github.com/"
  then SearchBar.handleSubmit repoUrl
       = [SearchBar.PreventDefault; SearchBar.OnSearch repoUrl]
       /\ GithubService.normalizedUrl (GithubService.formattedUrl repoUrl)
          = GithubService.formattedUrl repoUrl
  else exists msg,
         SearchBar.handleSubmit repoUrl
         = [SearchBar.PreventDefault; SearchBar.ToastError msg].
Proof.
  unfold SearchBar.handleSubmit.
  destruct (JsString.includes repoUrl "github.com/") eqn:E.
  - destruct (includes_github_slash repoUrl E) as [github typed].
    rewrite typed. split; [reflexivity|].
    apply normalizedUrl_github. unfold GithubService.formattedUrl.
    destruct (negb (JsString.startsWith repoUrl "http")); [|exact github].
    now apply includes_after_prefix.
  - destruct (negb (JsString.truthy (JsString.trim repoUrl)));
      eexists; reflexivity.
Qed.

(** ** The index page *)

Lemma askBotToResolve_requests (p : Platform)
    (backend : Request -> Outcome (Response ApiService.ProcessIssueResponse))
    (issue : Issue.t) :
  Net.requests (GithubService.askBotToResolve p backend issue)
  = [ApiService.processIssueRequest p issue].
Proof.
  rewrite <- (processIssueWithAgent_requests p backend issue).
  unfold GithubService.askBotToResolve, Net.bind, Net.tryCatch, Net.requests,
    Net.ret.
  destruct (ApiService.processIssueWithAgent p backend issue)
    as [sent [r|e]]; cbn; now rewrite ?app_nil_r.
Qed.

(** X8. Asking the bot about an issue makes one submission, marks the issue
    as being processed and unmarks it at the end whatever happened. The
    page navigates to the chat exactly when the backend accepted with a
    non-empty client id; the navigation carries that issue and that id,
    and the chat page then shows the chat and connects to the URL made
    from that id. When the accepted answer has an empty client id the
    success text is shown as an error toast; when the submission failed,
    one error toast is shown. *)
Theorem ask_bot_navigates_with_issued_client_id (p : Platform)
    (backend : Request -> Outcome (Response ApiService.ProcessIssueResponse))
    (issue : Issue.t) (st : Index.State) :
  let actions := snd (Index.handleAskBot p backend issue) in
  let first := Index.SetProcessingIssueId (Some (Issue.id issue)) in
  let last := Index.SetProcessingIssueId None in
  let note :=
    "Bot is analyzing issue #" ++ JsString.ofNumber (Issue.number issue)
      ++ ": " ++ Issue.title issue in
  fst (Index.handleAskBot p backend issue)
    = [ApiService.processIssueRequest p issue]
  /\ Index.processingIssueId (Index.after actions st) = None
  /\ Index.issues (Index.after actions st) = Index.issues st
  /\ Index.isLoading (Index.after actions st) = Index.isLoading st
  /\ match Net.settled (ApiService.processIssueWithAgent p backend issue) with
     | Resolved accepted =>
         let token := ApiService.client_id accepted in
         let loc :=
           Some {| ChatPage.issue := issue; ChatPage.clientId := token |} in
         if JsString.truthy token
         then actions
              = [first; Index.Navigate "/chat" issue token;
                 Index.ToastSuccess note; last]
              /\ ChatPage.screen loc = ChatPage.Chat
              /\ ChatPage.connect p loc = Some (ApiService.wsUrl p token)
         else actions = [first; Index.ToastError note; last]
     | Rejected (ErrorObj m) =>
         actions
         = [first;
            Index.ToastError
              (if JsString.truthy m then m else "Failed to process request");
            last]
     | Rejected (NonError _) =>
         actions
         = [first;
            Index.ToastError
              "An unknown error occurred while processing the issue";
            last]
     end.
Proof.
  cbn zeta. unfold Index.handleAskBot. cbn [fst snd].
  split; [apply askBotToResolve_requests|].
  rewrite askBotToResolve_settled.
  destruct (Net.settled (ApiService.processIssueWithAgent p backend issue))
    as [accepted|[m|v]].
  - cbn [GithubService.success GithubService.clientId GithubService.message].
    destruct (ApiService.client_id accepted) as [|c rest] eqn:T;
      cbn; repeat split.
  - cbn [GithubService.success GithubService.clientId GithubService.message].
    destruct m; cbn; repeat split.
  - cbn; repeat split.
Qed.

Lemma fetchGitHubIssues_no_other_value (p : Platform)
    (backend : Request -> Outcome (Response JsVal)) (repoUrl : string)
    (v : JsVal) :
  Net.settled (GithubService.fetchGitHubIssues p backend repoUrl)
  <> Rejected (NonError v).
Proof.
  destruct (GithubService.extractRepoInfo p (GithubService.formattedUrl repoUrl))
    as [info|] eqn:E.
  - rewrite (fetchGitHubIssues_by_reply p backend repoUrl info E).
    cbn [Net.settled snd].
    destruct (backend _) as [response|[m|w]]; try discriminate.
    destruct (ok response); [|discriminate].
    destruct (json response) as [data|[m|w]]; try discriminate.
    destruct (GithubService.adaptResponse p data) as [issues|[m|w]];
      discriminate.
  - rewrite (fetchGitHubIssues_invalid p backend repoUrl E). discriminate.
Qed.

(** X9. A search always ends with the loading flag off and leaves the
    processing mark alone. When the fetch resolves, the page holds exactly
    the fetched issues and shows one toast: the no-issues notice for an
    empty result, otherwise the count. When it rejects, the page holds no
    issues and the one toast shows the thrown error's own message: the
    fallback text for a value that is not an [Error] is never reached. *)
Theorem search_ends_loading_and_reports (p : Platform)
    (backend : Request -> Outcome (Response JsVal)) (repoUrl : string)
    (st : Index.State) :
  let actions := snd (Index.handleSearch p backend repoUrl) in
  let st' := Index.after actions st in
  fst (Index.handleSearch p backend repoUrl)
    = Net.requests (GithubService.fetchGitHubIssues p backend repoUrl)
  /\ Index.isLoading st' = false
  /\ Index.processingIssueId st' = Index.processingIssueId st
  /\ match Net.settled (GithubService.fetchGitHubIssues p backend repoUrl) with
     | Resolved fetched =>
         Index.issues st' = fetched
         /\ actions
            = [Index.SetIsLoading true; Index.SetIssues fetched;
               match fetched with
               | [] => Index.ToastInfo "No open issues found in this repository"
               | _ :: _ =>
                   Index.ToastSuccess
                     ("Found " ++ JsString.ofNumber (Z.of_nat (length fetched))
                      ++ " issues")
               end;
               Index.SetIsLoading false]
     | Rejected e =>
         Index.issues st' = []
         /\ exists m,
              e = ErrorObj m
              /\ actions
                 = [Index.SetIsLoading true; Index.ToastError m;
                    Index.SetIssues []; Index.SetIsLoading false]
     end.
Proof.
  cbn zeta. unfold Index.handleSearch. cbn [fst snd].
  split; [reflexivity|].
  pose proof (fetchGitHubIssues_no_other_value p backend repoUrl) as never.
  destruct (Net.settled (GithubService.fetchGitHubIssues p backend repoUrl))
    as [fetched|[m|v]].
  - destruct fetched as [|a rest]; cbn; repeat split.
  - cbn. repeat split. exists m. split; reflexivity.
  - now elim (never v).
Qed.

(** X10. What the index page shows below the search field: the loading line
    exactly while loading; otherwise one card per issue held, when there is
    any; otherwise the invitation to search. The other placeholder text,
    [No open issues found in this repository], is never shown there. *)
Theorem main_view_by_state (st : Index.State) :
  match Index.mainView st with
  | Index.Loading => Index.isLoading st = true
  | Index.Cards shown flags =>
      Index.isLoading st = false
      /\ shown = Index.issues st
      /\ shown <> []
      /\ length flags = length shown
  | Index.Placeholder text =>
      Index.isLoading st = false
      /\ Index.issues st = []
      /\ text = "Search for a GitHub repository to view its issues"
  end.
Proof.
  unfold Index.mainView.
  destruct (Index.isLoading st); [reflexivity|].
  destruct (Index.issues st) as [|a rest]; cbn.
  - repeat split.
  - repeat split; [discriminate | now rewrite length_map].
Qed.

(** ** The chat page *)

(** X11. Sending from the chat page. With nothing but white space typed
    (the case in which the Send button is disabled) the handler changes
    nothing and has no effect. Otherwise it appends exactly one message,
    the user's, holding the text exactly as typed, clears the field, and
    has exactly one effect: the text is sent on the socket, and the typing
    indicator turned on, when and only when the socket is open and the
    send does not throw; in every other case an error toast is shown and
    the indicator is off. *)
Theorem chat_send_appends_typed_text (p : Platform) (issue : option Issue.t)
    (socket : option ChatPage.ReadyState) (sendThrows : bool)
    (page : ChatPage.Page) :
  let result := ChatPage.handleSendMessage p issue socket sendThrows page in
  if ChatPage.sendDisabled page
  then result = (page, [])
  else exists m effect,
         ChatPage.messages (ChatPage.view (fst result))
         = (ChatPage.messages (ChatPage.view page) ++ [m])%list
         /\ ChatPage.content m = ChatPage.inputValue page
         /\ ChatPage.isUser m = true
         /\ ChatPage.inputValue (fst result) = EmptyString
         /\ snd result = [effect]
         /\ (effect
              = ChatPage.Send
                  {| ChatPage.message := ChatPage.inputValue page;
                     ChatPage.issueId := option_map Issue.number issue |}
             <-> socket = Some ChatPage.OPEN /\ sendThrows = false)
         /\ ((exists msg, effect = ChatPage.ToastError msg)
             <-> ~ (socket = Some ChatPage.OPEN /\ sendThrows = false))
         /\ (ChatPage.isTyping (ChatPage.view (fst result)) = true
             <-> socket = Some ChatPage.OPEN /\ sendThrows = false).
Proof.
  cbn zeta. unfold ChatPage.handleSendMessage, ChatPage.sendDisabled.
  destruct (negb (JsString.truthy (JsString.trim (ChatPage.inputValue page))));
    [reflexivity|].
  destruct socket as [[| | |]|]; destruct sendThrows; cbn;
    eexists; eexists;
    (split; [reflexivity|]); (split; [reflexivity|]); (split; [reflexivity|]);
    (split; [reflexivity|]); (split; [reflexivity|]);
    repeat split; intros; try discriminate; try tauto;
    try (eexists; reflexivity);
    try (intros [? ?]; discriminate);
    try match goal with
        | H : _ /\ _ |- _ => destruct H; discriminate
        | H : exists _, _ |- _ => destruct H; discriminate
        | H : ~ _ |- _ => elim H; now split
        end.
Qed.

Lemma onMessage_appends (p : Platform) (m : ApiService.WebSocketMessage)
    (st : ChatPage.State) :
  exists shown,
    ChatPage.onMessage p m st
    = {| ChatPage.messages := (ChatPage.messages st ++ [shown])%list;
         ChatPage.isTyping := false |}
    /\ ChatPage.content shown = ApiService.content m
    /\ ChatPage.isUser shown = negb (ApiService.isAgent m).
Proof. eexists. repeat split. Qed.

Lemma step_grows (p : Platform) (issue : option Issue.t)
    (page : ChatPage.Page) (e : ChatPage.Event) :
  exists added,
    ChatPage.messages (ChatPage.view (ChatPage.step p issue page e))
    = (ChatPage.messages (ChatPage.view page) ++ added)%list
    /\ length added <= 1.
Proof.
  destruct e as [value|socket sendThrows|text| |code]; cbn [ChatPage.step].
  - exists []. cbn. rewrite app_nil_r. split; [reflexivity | lia].
  - unfold ChatPage.handleSendMessage.
    destruct (negb (JsString.truthy _)).
    + exists []. cbn. rewrite app_nil_r. split; [reflexivity | lia].
    + destruct socket as [[| | |]|]; destruct sendThrows; cbn;
        eexists [_]; (split; [reflexivity | cbn; lia]).
  - eexists [_]. split; [reflexivity | cbn; lia].
  - eexists [_]. split; [reflexivity | cbn; lia].
  - unfold ApiService.onclose. destruct (negb (code =? 1000)%Z); cbn.
    + eexists [_]. split; [reflexivity | cbn; lia].
    + exists []. rewrite app_nil_r. split; [reflexivity | cbn; lia].
Qed.

(** X12. Whatever happens on a mounted chat page (typing, sending, frames,
    socket errors and closes, in any order), the messages already shown
    stay where they are: the list only grows at its end, by at most one
    message per event; in particular the greeting the page starts with
    stays first. *)
Theorem chat_history_only_grows (p : Platform) (issue : option Issue.t)
    (events : list ChatPage.Event) (page : ChatPage.Page) :
  (exists added,
     ChatPage.messages (ChatPage.view (ChatPage.run p issue events page))
     = (ChatPage.messages (ChatPage.view page) ++ added)%list
     /\ length added <= length events)
  /\ nth_error
       (ChatPage.messages
          (ChatPage.view
             (ChatPage.run p issue events (ChatPage.initial p issue))))
       0
     = Some (ChatPage.greeting p issue).
Proof.
  assert (grows : forall evs pg,
            exists added,
              ChatPage.messages (ChatPage.view (ChatPage.run p issue evs pg))
              = (ChatPage.messages (ChatPage.view pg) ++ added)%list
              /\ length added <= length evs).
  { induction evs as [|e evs IH]; intros pg; cbn [ChatPage.run fold_left].
    - exists []. split; [now rewrite app_nil_r | cbn; lia].
    - destruct (step_grows p issue pg e) as (one & E1 & L1).
      destruct (IH (ChatPage.step p issue pg e)) as (more & E2 & L2).
      exists (one ++ more)%list. split.
      + unfold ChatPage.run in E2. now rewrite E2, E1, app_assoc.
      + rewrite length_app. cbn [length]. lia. }
  split; [apply grows|].
  destruct (grows events (ChatPage.initial p issue)) as (added & E & _).
  rewrite E. reflexivity.
Qed.

(** X13. A socket error, and a close with any code other than 1000, each
    put exactly one more message on the page, on the agent's side, and
    turn the typing indicator off; a close with code 1000 leaves what the
    page shows as it is. *)
Theorem socket_trouble_is_shown_as_agent (p : Platform)
    (issue : option Issue.t) (page : ChatPage.Page) (code : Z) :
  (exists m,
     ChatPage.view (ChatPage.step p issue page ChatPage.SocketError)
     = {| ChatPage.messages :=
            (ChatPage.messages (ChatPage.view page) ++ [m])%list;
          ChatPage.isTyping := false |}
     /\ ChatPage.isUser m = false
     /\ ChatPage.content m
        = "Error: Connection to agent failed. Please try again.")
  /\ (if (code =? 1000)%Z
      then ChatPage.view (ChatPage.step p issue page (ChatPage.SocketClose code))
           = ChatPage.view page
      else exists m,
             ChatPage.view
               (ChatPage.step p issue page (ChatPage.SocketClose code))
             = {| ChatPage.messages :=
                    (ChatPage.messages (ChatPage.view page) ++ [m])%list;
                  ChatPage.isTyping := false |}
             /\ ChatPage.isUser m = false
             /\ ChatPage.content m
                = "Connection to agent closed. The analysis may be complete.").
Proof.
  split.
  - eexists. repeat split.
  - cbn [ChatPage.step]. unfold ApiService.onclose.
    destruct (code =? 1000)%Z; cbn; [reflexivity|].
    eexists. repeat split.
Qed.

(** X14. The chat page opens its socket exactly when it shows the chat:
    with an issue and a non-empty client id in the location state it shows
    the chat and connects to the URL made from that client id; with no
    location state, or an empty client id, it shows the missing-data
    screen and opens no socket. *)
Theorem chat_page_connects_when_chat_shown (p : Platform)
    (loc : option ChatPage.LocationState) :
  match ChatPage.screen loc with
  | ChatPage.Chat =>
      exists l,
        loc = Some l
        /\ JsString.truthy (ChatPage.clientId l) = true
        /\ ChatPage.connect p loc
           = Some (ApiService.wsUrl p (ChatPage.clientId l))
  | ChatPage.Missing _ _ => ChatPage.connect p loc = None
  end.
Proof.
  destruct loc as [l|]; cbn; [|reflexivity].
  destruct (JsString.truthy (ChatPage.clientId l)) eqn:E; cbn; [|reflexivity].
  exists l. repeat split. exact E.
Qed.

(** ** The issue card *)

Lemma string_length_append (a b : string) :
  String.length (a ++ b) = String.length a + String.length b.
Proof. induction a as [|c a IH]; simpl; [reflexivity | now rewrite IH]. Qed.

(** X15. The body text on a collapsed issue card is never empty and never
    longer than 153 code units. A body of more than 150 units is cut to
    its first 150 followed by three dots; a shorter, non-empty body is
    shown whole, so that expanding the card changes nothing; an issue with
    an empty body shows [No description provided.] collapsed and expanded
    alike. *)
Theorem issue_card_body_is_bounded (issue : Issue.t) :
  JsString.truthy (IssueCard.truncatedBody issue) = true
  /\ String.length (IssueCard.truncatedBody issue) <= 153
  /\ (if JsString.truthy (Issue.body issue)
      then if (150 <? String.length (Issue.body issue))%nat
           then IssueCard.truncatedBody issue
                = JsString.take 150 (Issue.body issue) ++ "..."
                /\ String.length (IssueCard.truncatedBody issue) = 153
                /\ (exists cut,
                      Issue.body issue
                      = JsString.take 150 (Issue.body issue) ++ cut)
                /\ IssueCard.bodyText true issue = Issue.body issue
           else IssueCard.bodyText false issue = Issue.body issue
                /\ IssueCard.bodyText true issue = Issue.body issue
      else IssueCard.bodyText false issue = "No description provided."
           /\ IssueCard.bodyText true issue = "No description provided.").
Proof.
  unfold IssueCard.bodyText, IssueCard.truncatedBody.
  destruct (JsString.truthy (Issue.body issue)) eqn:T.
  - destruct (Nat.ltb_spec 150 (String.length (Issue.body issue))) as [long|short].
    + assert (L : String.length (JsString.take 150 (Issue.body issue) ++ "...")
                  = 153).
      { rewrite string_length_append, take_length. simpl String.length. lia. }
      split; [|split; [lia|]].
      * destruct (Issue.body issue); [discriminate T | reflexivity].
      * split; [reflexivity|]. split; [exact L|].
        split; [apply take_prefix | reflexivity].
    + split; [exact T|]. split; [lia|]. split; reflexivity.
  - repeat split. simpl. lia.
Qed.

(** ** The demo chat *)


(** ** The further properties at work on the examples *)


(** X5 on a repository URL followed by [/issues]. *)
Lemma extractRepoInfo_ignores_what_follows_witness :
  URL_pathname Example.platform
    (GithubService.normalizedUrl "https://github.com/facebook/react/issues")
  = Some ("/" ++ "facebook" ++ "/" ++ "react" ++ "/" ++ "issues")
  /\ GithubService.extractRepoInfo Example.platform
       "https://github.com/facebook/react/issues"
     = Some {| GithubService.owner := "facebook";
               GithubService.repo := "react" |}.
Proof.
  split; [reflexivity|].
  exact (extractRepoInfo_ignores_what_follows Example.platform
           "https://github.com/facebook/react/issues"
           "facebook" "react" "issues"
           eq_refl eq_refl eq_refl eq_refl (or_intror eq_refl)).
Defined.

(** X6 on the shorthand [facebook/react]. *)
Lemma shorthand_is_read_as_https_owner_witness :
  JsString.startsWith "facebook/react" "http" = false
  /\ JsString.includes ("https://" ++ "facebook/react") "github.com" = false
  /\ URL_pathname Example.platform
       ("https://github.com/https://" ++ "facebook/react")
     = Some ("/https://" ++ "facebook/react")
  /\ GithubService.pathParts "facebook/react" = ["facebook"; "react"]
  /\ Net.requests
       (GithubService.fetchGitHubIssues Example.platform Example.unreachable
          "facebook/react")
     = [GithubService.fetchIssuesRequest Example.platform
          {| GithubService.owner := "https:";
             GithubService.repo := "facebook" |}].
Proof.
  split; [reflexivity|]. split; [reflexivity|]. split; [reflexivity|].
  split; [reflexivity|].
  exact (shorthand_is_read_as_https_owner Example.platform Example.unreachable
           "facebook/react" "facebook" ["react"]
           eq_refl eq_refl eq_refl eq_refl).
Defined.

(** ** From the backend's refusal to the toast *)

Lemma errorMessageOf_detail {T : Type} (response : Response T)
    (fields : list (string * JsVal)) (c : ascii) (d : string) :
  parsed response = Resolved (JObj fields) ->
  Js.lookup "detail" fields = JStr (String c d) ->
  errorMessageOf response = String c d.
Proof.
  unfold errorMessageOf. intros -> E. cbn [Js.get]. now rewrite E.
Qed.

(** X17. When the backend answers a search with a status that is not ok
    and a JSON object whose [detail] is a non-empty string, the page shows
    that very string in its one error toast, empties the list of issues
    and ends with the loading flag off. *)
Theorem search_shows_backend_detail (p : Platform)
    (backend : Request -> Outcome (Response JsVal)) (repoUrl : string)
    (info : GithubService.RepoInfo) (response : Response JsVal)
    (fields : list (string * JsVal)) (c : ascii) (d : string) :
  GithubService.extractRepoInfo p (GithubService.formattedUrl repoUrl)
    = Some info ->
  backend (GithubService.fetchIssuesRequest p info) = Resolved response ->
  ok response = false ->
  parsed response = Resolved (JObj fields) ->
  Js.lookup "detail" fields = JStr (String c d) ->
  Index.handleSearch p backend repoUrl
  = ([GithubService.fetchIssuesRequest p info],
     [Index.SetIsLoading true; Index.ToastError (String c d);
      Index.SetIssues []; Index.SetIsLoading false]).
Proof.
  intros E R notOk body detail. unfold Index.handleSearch.
  rewrite (fetchGitHubIssues_by_reply p backend repoUrl info E).
  cbn [Net.requests Net.settled fst snd]. rewrite R, notOk.
  now rewrite (errorMessageOf_detail response fields c d body detail).
Qed.

(** X18. When the backend answers a submission with a status that is not ok
    and a JSON object whose [detail] is a non-empty string, asking the bot
    shows that very string in its one error toast and does not navigate;
    the issue is unmarked at the end. *)
Theorem ask_bot_shows_backend_detail (p : Platform)
    (backend : Request -> Outcome (Response ApiService.ProcessIssueResponse))
    (issue : Issue.t) (response : Response ApiService.ProcessIssueResponse)
    (fields : list (string * JsVal)) (c : ascii) (d : string) :
  backend (ApiService.processIssueRequest p issue) = Resolved response ->
  ok response = false ->
  parsed response = Resolved (JObj fields) ->
  Js.lookup "detail" fields = JStr (String c d) ->
  Index.handleAskBot p backend issue
  = ([ApiService.processIssueRequest p issue],
     [Index.SetProcessingIssueId (Some (Issue.id issue));
      Index.ToastError (String c d);
      Index.SetProcessingIssueId None]).
Proof.
  intros R notOk body detail. unfold Index.handleAskBot.
  rewrite askBotToResolve_requests, askBotToResolve_settled,
    processIssueWithAgent_settled, R, notOk.
  now rewrite (errorMessageOf_detail response fields c d body detail).
Qed.

Lemma at_most_one_with_key {A} (key : A -> Z) (n : Z) (l : list A) :
  NoDup (map key l) ->
  length (filter (fun x => (n =? key x)%Z) l) <= 1.
Proof.
  induction l as [|x l IH]; intros H; cbn [map filter] in *; [cbn; lia|].
  inversion H as [|? ? notIn rest]; subst.
  destruct (Z.eqb_spec n (key x)) as [e|ne]; [|now apply IH].
  assert (none : filter (fun y => (n =? key y)%Z) l = []).
  { destruct (filter _ l) as [|y ys] eqn:F; [reflexivity|].
    assert (In y (filter (fun y => (n =? key y)%Z) l)) as Hy
      by (rewrite F; now left).
    apply filter_In in Hy as [Hin Hk]. apply Z.eqb_eq in Hk.
    elim notIn. rewrite <- e, Hk. now apply in_map. }
  rewrite none. cbn. lia.
Qed.

Lemma fetched_ids_distinct (p : Platform)
    (backend : Request -> Outcome (Response JsVal)) (repoUrl : string)
    (issues : list GithubService.AdaptedIssue) :
  Net.settled (GithubService.fetchGitHubIssues p backend repoUrl)
    = Resolved issues ->
  NoDup (map GithubService.id issues).
Proof.
  intros H. destruct (fetchGitHubIssues_resolved p backend repoUrl issues H)
    as [data A].
  assert (ids : forall i a,
            nth_error issues i = Some a ->
            GithubService.id a = (Z.of_nat i + 1)%Z).
  { rewrite adaptResponse_by_body in A.
    destruct (Js.get data "issues") as [[| |b|n|t|items|fields]|];
      try (injection A as <-; intros [|i] a E; discriminate E).
    intros i a E.
    destruct (mapFrom_resolved _ items 0 issues A) as [_ found].
    destruct (found i a E) as (item & _ & F).
    now apply adapt_resolved in F. }
  apply (proj2 (NoDup_nth_error (map GithubService.id issues))).
  intros i j Hi Eij. rewrite length_map in Hi.
  destruct (nth_error issues i) as [a|] eqn:Ea;
    [|apply nth_error_None in Ea; lia].
  rewrite (map_nth_error _ _ _ Ea) in Eij. symmetry in Eij.
  destruct (nth_error issues j) as [b|] eqn:Eb.
  - rewrite (map_nth_error _ _ _ Eb) in Eij. injection Eij as Eid.
    rewrite (ids i a Ea), (ids j b Eb) in Eid. lia.
  - apply nth_error_None in Eb.
    assert (nth_error (map GithubService.id issues) j = None) as N
      by (apply nth_error_None; now rewrite length_map).
    rewrite N in Eij. discriminate.
Qed.

(** X19. After any search, whichever issue is being processed, at most one
    of the issues the page holds has that id: at most one card can show as
    processing. *)
Theorem at_most_one_card_is_processing (p : Platform)
    (backend : Request -> Outcome (Response JsVal)) (repoUrl : string)
    (st : Index.State) (n : Z) :
  length
    (filter (fun i => (n =? GithubService.id i)%Z)
       (Index.issues
          (Index.after (snd (Index.handleSearch p backend repoUrl)) st)))
  <= 1.
Proof.
  unfold Index.handleSearch. cbn [snd].
  destruct (Net.settled (GithubService.fetchGitHubIssues p backend repoUrl))
    as [fetched|e] eqn:S.
  - assert (Index.issues
              (Index.after
                 ([Index.SetIsLoading true]
                  ++ (Index.SetIssues fetched
                      :: (if (length fetched =? 0)%nat
                          then [Index.ToastInfo
                                  "No open issues found in this repository"]
                          else [Index.ToastSuccess
                                  ("Found "
                                   ++ JsString.ofNumber
                                        (Z.of_nat (length fetched))
                                   ++ " issues")]))
                  ++ [Index.SetIsLoading false]) st) = fetched) as ->
      by (destruct (length fetched =? 0)%nat; reflexivity).
    apply at_most_one_with_key.
    exact (fetched_ids_distinct p backend repoUrl fetched S).
  - cbn. lia.
Qed.

(** X17 on a repository the backend does not find. *)
Lemma search_shows_backend_detail_witness :
  GithubService.extractRepoInfo Example.platform
    (GithubService.formattedUrl "github.com/facebook/nothing")
  = Some {| GithubService.owner := "facebook";
            GithubService.repo := "nothing" |}
  /\ snd (Index.handleSearch Example.platform Example.notFound
            "github.com/facebook/nothing")
     = [Index.SetIsLoading true; Index.ToastError "Repository not found";
        Index.SetIssues []; Index.SetIsLoading false].
Proof.
  split; [reflexivity|].
  exact (f_equal snd
           (search_shows_backend_detail Example.platform Example.notFound
              "github.com/facebook/nothing" _ _ _ _ _
              eq_refl eq_refl eq_refl eq_refl eq_refl)).
Defined.

(** X18 on a backend that is busy. *)
Lemma ask_bot_shows_backend_detail_witness :
  (exists response,
     Example.overloaded (ApiService.processIssueRequest Example.platform
                           Example.issue)
     = Resolved response
     /\ ok response = false)
  /\ snd (Index.handleAskBot Example.platform Example.overloaded Example.issue)
     = [Index.SetProcessingIssueId (Some 1%Z);
        Index.ToastError "Agent is busy";
        Index.SetProcessingIssueId None].
Proof.
  split; [eexists; split; reflexivity|].
  exact (f_equal snd
           (ask_bot_shows_backend_detail Example.platform Example.overloaded
              Example.issue _ _ _ _ eq_refl eq_refl eq_refl eq_refl)).
Defined.
